(** * GeoApp: geocoding fallback, bounding box and proximity filter

    A shallow embedding of [app/GeoApp.py] (the PyQt application) and of
    [app/GeoAppCmd.py] (its command-line predecessor), and the properties of
    the address-to-map pipeline proved over it.

    Conventions of the embedding.
    - A Python [float] is one of NaN, the two infinities, or a finite value,
      which is kept as the rational number it denotes.  Comparisons are the
      IEEE ones (everything that involves NaN is false).  The few arithmetic
      operations of the program are computed without rounding, and a decimal
      literal such as [1.15] stands for the decimal it spells.
    - A pandas [DataFrame] is the list of its rows, in index order.
    - Everything the program reaches outside its own two files (the pickled
      table, the spaCy model, the two geocoders, geopy's geodesic distance,
      Python's [float()] parser) is a field of the record [World]; pandas'
      [sort_values] is the class [SortValues], known by its contract only.
    - Methods that talk to the user or to a service run in the monad [M],
      which records the events in order and stops at the first exception.
      The services are taken to answer: a network failure or a missing file
      is not part of the model. *)

From Stdlib Require Import List Ascii String Bool ZArith QArith Qabs Qround.
From Stdlib Require Import Lia Lqa Permutation Sorted.
Import ListNotations.

Open Scope string_scope.
Open Scope list_scope.
Open Scope Z_scope.

(** ** Python floats *)

Inductive float : Type :=
| NaN
| NegInf
| Finite (q : Q)
| PosInf.

Declare Scope float_scope.
Delimit Scope float_scope with float.
Bind Scope float_scope with float.

(** [x <= y] on floats. *)
Definition fleb (x y : float) : bool :=
  match x, y with
  | NaN, _ | _, NaN => false
  | NegInf, _ => true
  | _, PosInf => true
  | Finite a, Finite b => Qle_bool a b
  | Finite _, NegInf => false
  | PosInf, _ => false
  end.

(** [x < y] on floats. *)
Definition fltb (x y : float) : bool :=
  match x, y with
  | NaN, _ | _, NaN => false
  | NegInf, NegInf => false
  | NegInf, _ => true
  | PosInf, _ => false
  | Finite a, Finite b => negb (Qle_bool b a)
  | Finite _, PosInf => true
  | Finite _, NegInf => false
  end.

(** [x == y] on floats. *)
Definition feqb (x y : float) : bool :=
  match x, y with
  | NegInf, NegInf | PosInf, PosInf => true
  | Finite a, Finite b => Qeq_bool a b
  | _, _ => false
  end.

Infix "<=?" := fleb (at level 70, no associativity) : float_scope.
Infix "<?" := fltb (at level 70, no associativity) : float_scope.
Infix "=?" := feqb (at level 70, no associativity) : float_scope.

Definition is_nan (x : float) : bool :=
  match x with NaN => true | _ => false end.

(** [x * y] for a finite, positive constant [y] (the only product the
    program forms is [proximity_threshold * 1000]). *)
Definition fmul_pos (x : float) (y : Q) : float :=
  match x with
  | Finite q => Finite (q * y)
  | other => other
  end.

Definition float_of_Z (z : Z) : float := Finite (inject_Z z).

(** ** Exceptions, events and the monad of the effectful methods *)

Inductive exn : Type :=
| ValueError (msg : string)
| OverflowError (msg : string)
| TypeError (msg : string)
| AttributeError (msg : string)
| EOFError.

Inductive result (A : Type) : Type :=
| Ok (a : A)
| Raised (e : exn).
Arguments Ok {A} a.
Arguments Raised {A} e.

(** [int(x)]: truncation towards zero; NaN and the infinities raise. *)
Definition int_of_float (x : float) : result Z :=
  match x with
  | NaN => Raised (ValueError "cannot convert float NaN to integer")
  | NegInf | PosInf =>
      Raised (OverflowError "cannot convert float infinity to integer")
  | Finite q => Ok (Z.quot (Qnum q) (Zpos (Qden q)))
  end.

(** ** numpy.interp *)

Module np.

(** The walk over the sample points once [x0 <= q] is known: [x0], [y0] is
    the last point passed, [xp], [fp] the points still ahead. *)
Fixpoint interp_from (q x0 y0 : Q) (xp fp : list Q) : Q :=
  match xp, fp with
  | x1 :: xp', y1 :: fp' =>
      if Qle_bool x1 q then interp_from q x1 y1 xp' fp'
      else if Qeq_bool x0 q then y0
      else (y1 - y0) / (x1 - x0) * (q - x0) + y0
  | _, _ => y0
  end.

(** [numpy.interp(x, xp, fp)] for increasing sample points [xp], with the
    default [left = fp[0]] and [right = fp[-1]]; a NaN [x] comes back as
    NaN.  (numpy refuses an empty [xp]; the program never passes one.) *)
Definition interp (x : float) (xp fp : list Q) : float :=
  match xp, fp with
  | x0 :: xp', y0 :: fp' =>
      match x with
      | NaN => NaN
      | NegInf => Finite y0
      | PosInf => Finite (last fp y0)
      | Finite q =>
          if Qle_bool x0 q then Finite (interp_from q x0 y0 xp' fp')
          else Finite y0
      end
  | _, _ => NaN
  end.

End np.

(** ** Tables, geocoder results and maps *)

(** A row of the location table.  The column [proximity] exists only in the
    frame that [GeoApp.filter_locations] returns. *)
Module Row.
Record t : Type := mk {
  address : string;
  postal_code : string;
  latitude : float;
  longitude : float;
  proximity : option float
}.
End Row.

Definition DataFrame : Type := list Row.t.

(** [df.empty] *)
Definition empty (df : DataFrame) : bool :=
  match df with [] => true | _ :: _ => false end.

(** [df['proximity']] read on one row (a missing value reads as NaN). *)
Definition proximity_of (row : Row.t) : float :=
  match Row.proximity row with Some d => d | None => NaN end.

(** What a geocoder hands back: an object with [latitude] and [longitude]. *)
Module Location.
Record t : Type := mk { latitude : float; longitude : float }.
End Location.

Definition coordinate : Type := (float * float)%type.

(** What is put on a folium map. *)
Inductive map_element : Type :=
| HeatMap (points : list coordinate)
| MarkerCluster (markers : list (coordinate * string))
| LocationMarkers (rows : DataFrame)
| PolyLine (source target : coordinate)
| InputMarker (position : coordinate) (popup : string)
| Circle (centre : coordinate) (radius_meters : float)
| MeasureControl.

Module folium.
Record Map : Type := mk {
  location : coordinate;
  zoom_start : Z;
  children : list map_element
}.
End folium.

Inductive geocoder : Type := Nominatim | Pgeocode.

Inductive console : Type :=
| Line (text : string)
| Geocoded (by_service : geocoder) (address : option string) (lat lng : float)
| NotFound (address : option string)
| FoundWithin (proximity_threshold : float) (count : nat).

Inductive event : Type :=
| ErrorDialog (message : string)
| Console (out : console)
| LocationDataLoaded
| SpacyModelLoaded
| GeocoderCalled (service : geocoder) (address : option string)
| MapSaved (m : folium.Map) (map_filepath : string)
| MapShown (map_filepath : string).

(** ** The monad: a trace of events and a value or an exception *)

Definition M (A : Type) : Type := (list event * result A)%type.

Definition ret {A} (a : A) : M A := ([], Ok a).

Definition bind {A B} (m : M A) (k : A -> M B) : M B :=
  match m with
  | (t, Ok a) => let (t', r) := k a in (t ++ t', r)
  | (t, Raised e) => (t, Raised e)
  end.

Definition emit (e : event) : M unit := ([e], Ok tt).
Definition raise {A} (e : exn) : M A := ([], Raised e).
Definition lift {A} (r : result A) : M A := ([], r).
Definition print (text : string) : M unit := emit (Console (Line text)).

Definition trace {A} (m : M A) : list event := fst m.
Definition outcome {A} (m : M A) : result A := snd m.

Notation "x <- m ;; k" := (bind m (fun x => k))
  (at level 61, m at next level, right associativity).
Notation "m ;; k" := (bind m (fun _ => k))
  (at level 61, right associativity).

(** ** The world outside the two files *)

Record World : Type := {
  (** directory of the running script *)
  current_dir : string;
  (** [pd.read_pickle(locations_file)[['address', 'postal_code', 'latitude',
      'longitude']]] *)
  locations_pkl : DataFrame;
  (** the spaCy model: [(ent.text, ent.label_)] for the entities of a text *)
  nlp : string -> list (string * string);
  (** geopy's [Nominatim(...).geocode(address)]; [None] when it finds nothing *)
  nominatim_geocode : option string -> option Location.t;
  (** pgeocode's [Nominatim('sg').query_postal_code(address)]; [None] stands
      for a result whose [.empty] is true.  An unknown postal code gives a
      result that is not empty and holds NaN coordinates. *)
  pgeocode_query : option string -> option Location.t;
  (** geopy's [distance.distance(p, q).km], taken on coordinates that geopy
      accepts (it raises on a latitude outside [-90, 90]) *)
  geodesic_km : coordinate -> coordinate -> float;
  (** Python's [float(text)]; [None] when it raises [ValueError] *)
  float_of_string : string -> option float
}.

(** ** pandas' sort_values *)

(** The order of an ascending sort with [na_position='last']. *)
Definition sort_le (x y : float) : bool :=
  match x, y with
  | _, NaN => true
  | NaN, _ => false
  | _, _ => fleb x y
  end.

(** [df.sort_values(by=key)] with every other argument left at its default:
    the rows come back rearranged in ascending order of the key.  The default
    [kind] is ['quicksort'], for which pandas promises nothing about rows
    whose keys are equal. *)
Class SortValues : Type := {
  sort_values : forall {A : Type}, (A -> float) -> list A -> list A;
  sort_values_Permutation :
    forall (A : Type) (key : A -> float) (df : list A),
      Permutation (sort_values key df) df;
  sort_values_Sorted :
    forall (A : Type) (key : A -> float) (df : list A),
      Sorted (fun r s => sort_le (key r) (key s) = true) (sort_values key df)
}.

(** ** Small pieces of Python *)

(** [text.replace(' ', '_')] *)
Fixpoint replace_spaces (text : string) : string :=
  match text with
  | EmptyString => EmptyString
  | String c rest =>
      String (if Ascii.eqb c " "%char then "_"%char else c) (replace_spaces rest)
  end.

(** [os.path.join(a, b, c)] for relative [b] and [c] *)
Definition path_join3 (a b c : string) : string :=
  (a ++ "/" ++ b ++ "/" ++ c)%string.

(** [series.min()]: the least value, NaN skipped; NaN when there is none. *)
Definition column_min (values : list float) : float :=
  fold_left
    (fun least v =>
       if is_nan v then least
       else if is_nan least then v
       else if (v <? least)%float then v else least)
    values NaN.

Definition point (row : Row.t) : coordinate :=
  (Row.latitude row, Row.longitude row).

Definition add_child (m : folium.Map) (child : map_element) : folium.Map :=
  folium.mk (folium.location m) (folium.zoom_start m)
            (folium.children m ++ [child]).

(** ** app/GeoApp.py *)

Module GeoApp.
Section Methods.

Context {pandas : SortValues}.
Variable world : World.

Definition load_location_data : M DataFrame :=
  emit LocationDataLoaded ;; ret (locations_pkl world).

Definition load_spacy_model : M unit :=
  emit SpacyModelLoaded.

Definition display_error_message (message : string) : M unit :=
  emit (ErrorDialog message).

Definition check_user_input (input_address proximity_threshold : string)
  : M bool :=
  if (input_address =? "")%string then
    display_error_message "Please enter an address." ;; ret false
  else if (proximity_threshold =? "")%string then
    display_error_message "Please enter a proximity threshold." ;; ret false
  else
    match float_of_string world proximity_threshold with
    | Some value =>
        if (value <=? float_of_Z 0)%float then
          display_error_message
            "Proximity threshold must be a positive number." ;;
          ret false
        else ret true
    | None =>
        display_error_message "Proximity threshold must be a valid number." ;;
        ret false
    end.

Definition min_lat_sg : float := Finite 1.15.
Definition max_lat_sg : float := Finite 1.47.
Definition min_lng_sg : float := Finite 103.6.
Definition max_lng_sg : float := Finite 104.1.

Definition check_location_in_sg (latitude longitude : float) : bool :=
  if ((min_lat_sg <=? latitude)%float && (latitude <=? max_lat_sg)%float)
     && ((min_lng_sg <=? longitude)%float && (longitude <=? max_lng_sg)%float)
  then true
  else false.

(** The loop of [extract_postal_code] over [ent_list]. *)
Fixpoint first_postal_code (ent_list : list (string * string))
  : option string :=
  match ent_list with
  | [] => None
  | (ent_text, ent_label) :: rest =>
      if (ent_label =? "POSTAL_CODE")%string then Some ent_text
      else first_postal_code rest
  end.

Definition extract_postal_code (input_address : string) : option string :=
  first_postal_code (nlp world input_address).

(** Each branch that finds nothing falls off its [if] and the method
    returns [None]; the final [else] is for an unknown [geo_service]. *)
Definition address_to_lat_long (address : option string) (geo_service : string)
  : M (option Location.t) :=
  if (geo_service =? "geopy")%string then
    emit (GeocoderCalled Nominatim address) ;;
    match nominatim_geocode world address with
    | Some location =>
        emit (Console (Geocoded Nominatim address
                         (Location.latitude location)
                         (Location.longitude location))) ;;
        ret (Some location)
    | None => ret None
    end
  else if (geo_service =? "pgeocode")%string then
    emit (GeocoderCalled Pgeocode address) ;;
    match pgeocode_query world address with
    | Some location2 =>
        emit (Console (Geocoded Pgeocode address
                         (Location.latitude location2)
                         (Location.longitude location2))) ;;
        ret (Some location2)
    | None => ret None
    end
  else
    emit (Console (NotFound address)) ;; ret None.

Definition get_zoom_level (proximity_threshold : float) : result Z :=
  let min_threshold := 0.1%Q in
  let max_threshold := 10%Q in
  let zoom_min_threshold := 17%Q in
  let zoom_max_threshold := 12%Q in
  let zoom_level :=
    np.interp proximity_threshold
              [min_threshold; max_threshold]
              [zoom_min_threshold; zoom_max_threshold] in
  int_of_float zoom_level.

Definition distance_to (user_latitude user_longitude : float) (row : Row.t)
  : float :=
  geodesic_km world (user_latitude, user_longitude) (point row).

Definition set_proximity (d : float) (row : Row.t) : Row.t :=
  Row.mk (Row.address row) (Row.postal_code row)
         (Row.latitude row) (Row.longitude row) (Some d).

Definition filter_locations (location_data : DataFrame)
           (user_latitude user_longitude proximity_threshold : float)
  : DataFrame :=
  let filtered_locations :=
    filter
      (fun row =>
         (distance_to user_latitude user_longitude row
          <=? proximity_threshold)%float)
      location_data in
  if negb (empty filtered_locations) then
    let filtered_locations :=
      map (fun row =>
             set_proximity (distance_to user_latitude user_longitude row) row)
          filtered_locations in
    sort_values proximity_of filtered_locations
  else filtered_locations.

Definition get_marker_colour (num_addresses : nat) : string :=
  if (1 <? num_addresses)%nat then "darkblue" else "blue".

Definition add_heat_density_to_map (m : folium.Map) (df : DataFrame)
  : folium.Map :=
  add_child m (HeatMap (map point df)).

Definition add_clusters_to_map (m : folium.Map) (df : DataFrame)
  : folium.Map :=
  add_child m
    (MarkerCluster (map (fun row => (point row, Row.address row)) df)).

(** One marker for each group of rows that share a coordinate; the grouping
    itself is pandas' and folium's business. *)
Definition add_markers_to_map (m : folium.Map) (df : DataFrame)
           (latitude longitude : float) : folium.Map :=
  add_child m (LocationMarkers df).

Definition add_input_marker_to_map (m : folium.Map) (input_address : string)
           (latitude longitude : float) : folium.Map :=
  add_child m (InputMarker (latitude, longitude) input_address).

Definition add_proximity_circle_to_map (m : folium.Map)
           (latitude longitude proximity_threshold : float) : folium.Map :=
  let radius_meters := fmul_pos proximity_threshold 1000 in
  let m := add_child m (Circle (latitude, longitude) radius_meters) in
  add_child m MeasureControl.

Definition add_polyline_to_map (m : folium.Map) (df : option DataFrame)
           (latitude longitude : float) : folium.Map :=
  match df with
  | Some df =>
      if negb (empty df) then
        let least := column_min (map proximity_of df) in
        let nearest_locations :=
          filter (fun row => (proximity_of row =? least)%float) df in
        fold_left
          (fun m location =>
             add_child m (PolyLine (latitude, longitude) (point location)))
          nearest_locations m
      else m
  | None => m
  end.

Definition create_folium_map (df : option DataFrame) (input_address : string)
           (latitude longitude proximity_threshold : float)
           (map_type : string) : M folium.Map :=
  custom_zoom <- lift (get_zoom_level proximity_threshold) ;;
  let m := folium.mk (latitude, longitude) custom_zoom [] in
  let m :=
    match df with
    | Some rows =>
        if (map_type =? "Heat Density")%string then
          add_heat_density_to_map m rows
        else if (map_type =? "Clusters")%string then
          add_clusters_to_map m rows
        else if (map_type =? "Proximity")%string then
          let m := add_markers_to_map m rows latitude longitude in
          add_polyline_to_map m df latitude longitude
        else m
    | None => m
    end in
  let m := add_input_marker_to_map m input_address latitude longitude in
  let m :=
    add_proximity_circle_to_map m latitude longitude proximity_threshold in
  ret m.

Definition save_folium_map (m : folium.Map) (map_filepath : string) : M unit :=
  emit (MapSaved m map_filepath) ;;
  print ("Map saved to " ++ map_filepath)%string.

Definition show_map_in_webview (map_filepath : string) : M unit :=
  emit (MapShown map_filepath).

Definition display_map (df : option DataFrame) (input_address : string)
           (latitude longitude proximity_threshold : float)
           (map_type : string) : M unit :=
  print "Generating map..." ;;
  let filename :=
    ("map_" ++ replace_spaces input_address ++ "_"
            ++ replace_spaces map_type ++ ".html")%string in
  let map_filepath := path_join3 (current_dir world) "maps" filename in
  m <- create_folium_map df input_address latitude longitude
                         proximity_threshold map_type ;;
  print "Map generated!" ;;
  save_folium_map m map_filepath ;;
  show_map_in_webview map_filepath.

(** A call of [display_map] as written at a call site.  [map_type] has no
    default value: a call that leaves it out ([None] here) raises
    [TypeError] when Python binds the arguments, before the body runs. *)
Definition call_display_map (df : option DataFrame) (input_address : string)
           (latitude longitude proximity_threshold : float)
           (map_type : option string) : M unit :=
  match map_type with
  | Some map_type =>
      display_map df input_address latitude longitude proximity_threshold
                  map_type
  | None =>
      raise (TypeError
        "display_map() missing 1 required positional argument: 'map_type'")
  end.

Definition print_addresses (df : DataFrame) (proximity_threshold : float)
  : M unit :=
  let addresses := map Row.address df in
  let count := List.length addresses in
  emit (Console (FoundWithin proximity_threshold count)) ;;
  print "-------------------------FILTERED LOCATIONS-------------------------" ;;
  fold_right (fun address rest => print address ;; rest) (ret tt) addresses ;;
  print "--------------------------------------------------------------------".

(** [user_location.latitude, user_location.longitude] *)
Definition coordinates_of (user_location : option Location.t)
  : M coordinate :=
  match user_location with
  | Some location =>
      ret (Location.latitude location, Location.longitude location)
  | None =>
      raise (AttributeError "'NoneType' object has no attribute 'latitude'")
  end.

(** The slot of the Enter button; its three arguments are the texts of the
    address field, of the proximity field and of the map-style box. *)
Definition process_user_input (input_address proximity_threshold map_type
                               : string) : M unit :=
  valid <- check_user_input input_address proximity_threshold ;;
  if valid then
    proximity_threshold <-
      match float_of_string world proximity_threshold with
      | Some value => ret value
      | None => raise (ValueError "could not convert string to float")
      end ;;
    location_data <- load_location_data ;;
    load_spacy_model ;;
    let postal_code := extract_postal_code input_address in
    user_location <- address_to_lat_long postal_code "geopy" ;;
    match user_location with
    | Some _ =>
        position <- coordinates_of user_location ;;
        let '(user_latitude, user_longitude) := position in
        let location_in_sg :=
          check_location_in_sg user_latitude user_longitude in
        resolved <-
          (if Bool.eqb location_in_sg false then
             (* Retry geocoding using pgeocode *)
             user_location <- address_to_lat_long postal_code "pgeocode" ;;
             position <- coordinates_of user_location ;;
             let '(user_latitude, user_longitude) := position in
             ret (user_latitude, user_longitude,
                  check_location_in_sg user_latitude user_longitude)
           else ret (user_latitude, user_longitude, location_in_sg)) ;;
        let '(user_latitude, user_longitude, location_in_sg) := resolved in
        if Bool.eqb location_in_sg true then
          (* Filter locations based on proximity threshold *)
          let filtered_locations :=
            filter_locations location_data user_latitude user_longitude
                             proximity_threshold in
          if negb (empty filtered_locations) then
            print_addresses filtered_locations proximity_threshold ;;
            call_display_map (Some filtered_locations) input_address
                             user_latitude user_longitude
                             proximity_threshold (Some map_type)
          else
            (* Display map without any filtered locations *)
            call_display_map None input_address user_latitude user_longitude
                             proximity_threshold None ;;
            display_error_message
              "No locations found within the specified proximity."
        else
          display_error_message
            "Unable to retrieve valid coordinates in Singapore"
    | None =>
        display_error_message "Unable to retrieve coordinates for the address"
    end
  else ret tt.

End Methods.
End GeoApp.

(** ** app/GeoAppCmd.py *)

Module GeoAppCmd.
Section Methods.

Variable world : World.

Definition address_to_lat_long (address : option string)
  : M (option Location.t) :=
  emit (GeocoderCalled Nominatim address) ;;
  match nominatim_geocode world address with
  | Some location =>
      emit (Console (Geocoded Nominatim address
                       (Location.latitude location)
                       (Location.longitude location))) ;;
      ret (Some location)
  | None =>
      emit (Console (NotFound address)) ;; ret None
  end.

Definition get_zoom_level (proximity_threshold : float) : result Z :=
  let min_threshold := 0.1%Q in
  let max_threshold := 10%Q in
  let min_zoom := 19%Q in
  let max_zoom := 13%Q in
  let zoom_level :=
    np.interp proximity_threshold
              [min_threshold; max_threshold] [min_zoom; max_zoom] in
  int_of_float zoom_level.

Definition create_folium_map (df : DataFrame) (input_address : string)
           (latitude longitude proximity_threshold : float)
  : M folium.Map :=
  custom_zoom <- lift (get_zoom_level proximity_threshold) ;;
  let m := folium.mk (latitude, longitude) custom_zoom [] in
  let m := add_child m (LocationMarkers df) in
  let m := add_child m (InputMarker (latitude, longitude) input_address) in
  let radius_meters := fmul_pos proximity_threshold 1000 in
  let m := add_child m (Circle (latitude, longitude) radius_meters) in
  ret m.

Definition save_folium_map (m : folium.Map) (map_filepath : string) : M unit :=
  emit (MapSaved m map_filepath).

Definition display_pyqt_map (map_filepath : string) : M unit :=
  emit (MapShown map_filepath) ;;
  print "Map generated!".

Definition display_map (df : DataFrame) (input_address : string)
           (latitude longitude proximity_threshold : float) : M unit :=
  print "Generating map..." ;;
  let map_filepath := (current_dir world ++ "/" ++ "map.html")%string in
  m <- create_folium_map df input_address latitude longitude
                         proximity_threshold ;;
  save_folium_map m map_filepath ;;
  display_pyqt_map map_filepath.

(** [input(prompt)] on the lines still waiting on standard input. *)
Definition input (prompt : string) (stdin : list string)
  : M (string * list string) :=
  print prompt ;;
  match stdin with
  | line :: rest => ret (line, rest)
  | [] => raise EOFError
  end.

(** Returns the pair it read and the lines it left unread. *)
Fixpoint get_user_input (stdin : list string)
  : M (string * float * list string) :=
  match stdin with
  | input_address :: text :: rest =>
      print "Enter the address: " ;;
      print "Enter the proximity threshold (in km): " ;;
      match float_of_string world text with
      | Some proximity_threshold =>
          ret (input_address, proximity_threshold, rest)
      | None =>
          print "Invalid input. Please try again." ;;
          get_user_input rest
      end
  | _ =>
      answer <- input "Enter the address: " stdin ;;
      answer <- input "Enter the proximity threshold (in km): " (snd answer) ;;
      raise EOFError
  end.

Definition filter_locations (location_data : DataFrame)
           (user_latitude user_longitude proximity_threshold : float)
  : DataFrame :=
  let filtered_locations :=
    filter
      (fun row =>
         (geodesic_km world (user_latitude, user_longitude) (point row)
          <=? proximity_threshold)%float)
      location_data in
  filtered_locations.

Definition print_addresses (df : DataFrame) (proximity_threshold : float)
  : M unit :=
  let addresses := map Row.address df in
  let count := List.length addresses in
  emit (Console (FoundWithin proximity_threshold count)) ;;
  print "-------------------------FILTERED LOCATIONS-------------------------" ;;
  fold_right (fun address rest => print address ;; rest) (ret tt) addresses ;;
  print "--------------------------------------------------------------------".

Definition load_location_data : M DataFrame :=
  emit LocationDataLoaded ;; ret (locations_pkl world).

Definition load_spacy_model : M unit :=
  emit SpacyModelLoaded.

(** The loop over [ent_list] in [run]. *)
Fixpoint first_postal_code (ent_list : list (string * string))
  : option string :=
  match ent_list with
  | [] => None
  | (ent_text, ent_label) :: rest =>
      if (ent_label =? "POSTAL_CODE")%string then Some ent_text
      else first_postal_code rest
  end.

(** The body of the [while True] of [run]; [again] is the next turn of the
    loop, taken when the address could not be geocoded. *)
Definition run_body (again : list string -> M unit)
           (location_data : DataFrame) (stdin : list string) : M unit :=
  answer <- get_user_input stdin ;;
  let '(input_address, proximity_threshold, stdin) := answer in
  let postal_code := first_postal_code (nlp world input_address) in
  user_location <- address_to_lat_long postal_code ;;
  match user_location with
  | Some location =>
      let user_latitude := Location.latitude location in
      let user_longitude := Location.longitude location in
      let filtered_locations :=
        filter_locations location_data user_latitude user_longitude
                         proximity_threshold in
      if negb (empty filtered_locations) then
        print_addresses filtered_locations proximity_threshold ;;
        display_map filtered_locations input_address user_latitude
                    user_longitude proximity_threshold
      else
        print "No locations found within the specified proximity."
  | None =>
      print "Unable to retrieve coordinates for the address" ;;
      again stdin
  end.

(** [turns] bounds the number of turns of the loop.  Every turn reads at
    least two lines, so [run] below never exhausts it. *)
Fixpoint run_loop (turns : nat) (location_data : DataFrame)
         (stdin : list string) : M unit :=
  match turns with
  | O => raise EOFError
  | S turns =>
      run_body (run_loop turns location_data) location_data stdin
  end.

Definition run (stdin : list string) : M unit :=
  location_data <- load_location_data ;;
  load_spacy_model ;;
  run_loop (S (List.length stdin)) location_data stdin.

End Methods.
End GeoAppCmd.

(** ** Two sorting algorithms that honour the contract of sort_values

    Both are insertion sorts.  [stable_pandas] places a row before the rows
    of equal key that followed it in the frame, [tie_reversing_pandas] places
    it after them. *)

Section InsertionSort.

Context {A : Type}.
Variable before : A -> A -> bool.

Fixpoint insert (x : A) (l : list A) : list A :=
  match l with
  | [] => [x]
  | y :: l' => if before x y then x :: y :: l' else y :: insert x l'
  end.

Definition insertion_sort (l : list A) : list A :=
  fold_right insert [] l.

End InsertionSort.

Definition key_le {A : Type} (key : A -> float) (r s : A) : bool :=
  sort_le (key r) (key s).

Definition key_lt {A : Type} (key : A -> float) (r s : A) : bool :=
  negb (sort_le (key s) (key r)).

(** ** Reading a trace *)

Definition is_geocoder_call (service : geocoder) (e : event) : bool :=
  match e, service with
  | GeocoderCalled Nominatim _, Nominatim => true
  | GeocoderCalled Pgeocode _, Pgeocode => true
  | _, _ => false
  end.

Definition is_error_dialog (e : event) : bool :=
  match e with ErrorDialog _ => true | _ => false end.

Definition is_console (e : event) : bool :=
  match e with Console _ => true | _ => false end.

(** A map is rendered when its HTML file is written or loaded in a view. *)
Definition is_map_event (e : event) : bool :=
  match e with MapSaved _ _ | MapShown _ => true | _ => false end.

(** What an event may be while a map centred on [(lat, lng)] is being
    drawn: console output, and that map saved and shown. *)
Definition map_at (lat lng : float) (e : event) : Prop :=
  match e with
  | Console _ | MapShown _ => True
  | MapSaved m _ => folium.location m = (lat, lng)
  | _ => False
  end.

(** ** A small world for the examples *)

Module Sample.

(** A stand-in for the geodesic: 111 km for each degree of latitude and of
    longitude between the two points. *)
Definition km (p q : coordinate) : float :=
  match p, q with
  | (Finite a, Finite b), (Finite c, Finite d) =>
      Finite (111 * (Qabs (a - c) + Qabs (b - d)))
  | _, _ => NaN
  end.

Definition orchard : Row.t :=
  Row.mk "2 Orchard Turn" "238801" (Finite 1.304) (Finite 103.832) None.
Definition jurong : Row.t :=
  Row.mk "1 Jurong East Street" "609731" (Finite 1.333) (Finite 103.742) None.
Definition changi : Row.t :=
  Row.mk "60 Airport Boulevard" "819643" (Finite 1.364) (Finite 103.991) None.
(** Two rows one hundredth of a degree away from [downtown], one to the
    north and one to the east. *)
Definition north : Row.t :=
  Row.mk "1 North Road" "100001" (Finite 1.31) (Finite 103.80) None.
Definition east : Row.t :=
  Row.mk "1 East Road" "100002" (Finite 1.30) (Finite 103.81) None.

Definition query : string := "123 ABC Road Singapore 987123".

Definition entities (text : string) : list (string * string) :=
  if (text =? query)%string
  then [("ABC Road", "STREET"); ("987123", "POSTAL_CODE")]
  else [].

Definition parse (text : string) : option float :=
  if (text =? "2")%string then Some (Finite 2)
  else if (text =? "1000")%string then Some (Finite 1000)
  else if (text =? "0")%string then Some (Finite 0)
  else if (text =? "-1")%string then Some (Finite (-1))
  else if (text =? "nan")%string then Some NaN
  else None.

Definition downtown : Location.t :=
  Location.mk (Finite 1.30) (Finite 103.80).
(** Johor Bahru, north of the box. *)
Definition johor : Location.t :=
  Location.mk (Finite 1.4927) (Finite 103.7414).
(** pgeocode's answer for a postal code it does not know. *)
Definition unknown : Location.t := Location.mk NaN NaN.

Definition world (table : DataFrame) (geopy pgeocode : option Location.t)
  : World := {|
  current_dir := "/srv/app";
  locations_pkl := table;
  nlp := entities;
  nominatim_geocode := fun _ => geopy;
  pgeocode_query := fun _ => pgeocode;
  geodesic_km := km;
  float_of_string := parse
|}.

End Sample.

(** * Properties *)

(** ** The order on floats *)

Lemma fleb_finite (a b : Q) : fleb (Finite a) (Finite b) = true <-> (a <= b)%Q.
Proof. simpl. apply Qle_bool_iff. Qed.

Lemma fleb_not_nan_l (x y : float) : fleb x y = true -> x <> NaN.
Proof. destruct x; simpl; congruence. Qed.

Lemma fleb_not_nan_r (x y : float) : fleb x y = true -> y <> NaN.
Proof. destruct x, y; simpl; congruence. Qed.

Lemma fleb_trans (x y z : float) :
  fleb x y = true -> fleb y z = true -> fleb x z = true.
Proof.
  destruct x, y, z; simpl; try congruence.
  rewrite !Qle_bool_iff. apply Qle_trans.
Qed.

Lemma sort_le_fleb (x y : float) :
  y <> NaN -> sort_le x y = true -> fleb x y = true.
Proof. destruct x, y; simpl; congruence. Qed.

Lemma sort_le_total (x y : float) : sort_le x y = true \/ sort_le y x = true.
Proof.
  destruct x, y; simpl; auto.
  destruct (Qle_bool q q0) eqn:E; auto.
  right. apply Qle_bool_iff.
  destruct (Qlt_le_dec q0 q) as [H | H].
  - apply Qlt_le_weak, H.
  - apply Qle_bool_iff in H. congruence.
Qed.

Lemma sort_le_trans (x y z : float) :
  sort_le x y = true -> sort_le y z = true -> sort_le x z = true.
Proof.
  destruct x, y, z; simpl; try congruence.
  rewrite !Qle_bool_iff. apply Qle_trans.
Qed.

(** ** Insertion sort *)

Section InsertionSortFacts.

Context {A : Type}.
Variable key : A -> float.
Variable before : A -> A -> bool.
Hypothesis before_le : forall x y, before x y = true -> key_le key x y = true.
Hypothesis after_le : forall x y, before x y = false -> key_le key y x = true.

Let R (r s : A) : Prop := sort_le (key r) (key s) = true.

Lemma insert_Permutation (x : A) (l : list A) :
  Permutation (insert before x l) (x :: l).
Proof.
  induction l as [| y l IH]; simpl.
  - reflexivity.
  - destruct (before x y).
    + reflexivity.
    + rewrite IH. apply perm_swap.
Qed.

Lemma insertion_sort_Permutation (l : list A) :
  Permutation (insertion_sort before l) l.
Proof.
  induction l as [| x l IH]; simpl.
  - reflexivity.
  - rewrite insert_Permutation. now constructor.
Qed.

Lemma insert_HdRel (a x : A) (l : list A) :
  R a x -> HdRel R a l -> HdRel R a (insert before x l).
Proof.
  intros Hax Hal. destruct l as [| y l]; simpl.
  - now constructor.
  - destruct (before x y); constructor; trivial.
    now inversion Hal.
Qed.

Lemma insert_Sorted (x : A) (l : list A) :
  Sorted R l -> Sorted R (insert before x l).
Proof.
  induction 1 as [| y l Hs IH Hd]; simpl.
  - repeat constructor.
  - destruct (before x y) eqn:E.
    + constructor; [now constructor |].
      constructor. apply before_le, E.
    + constructor; [exact IH |].
      apply insert_HdRel; [apply after_le, E | exact Hd].
Qed.

Lemma insertion_sort_Sorted (l : list A) : Sorted R (insertion_sort before l).
Proof.
  induction l as [| x l IH]; simpl.
  - constructor.
  - now apply insert_Sorted.
Qed.

End InsertionSortFacts.

Lemma key_lt_le {A : Type} (key : A -> float) (x y : A) :
  key_lt key x y = true -> key_le key x y = true.
Proof.
  unfold key_lt, key_le. intros H.
  destruct (sort_le_total (key x) (key y)) as [E | E]; trivial.
  rewrite E in H. discriminate.
Qed.

Lemma key_lt_false_le {A : Type} (key : A -> float) (x y : A) :
  key_lt key x y = false -> key_le key y x = true.
Proof.
  unfold key_lt, key_le. now destruct (sort_le (key y) (key x)).
Qed.

Lemma key_le_false_le {A : Type} (key : A -> float) (x y : A) :
  key_le key x y = false -> key_le key y x = true.
Proof.
  unfold key_le. intros H.
  destruct (sort_le_total (key x) (key y)) as [E | E]; congruence.
Qed.

Definition stable_pandas : SortValues := {|
  sort_values := fun A key => insertion_sort (key_le key);
  sort_values_Permutation := fun A key =>
    insertion_sort_Permutation (key_le key);
  sort_values_Sorted := fun A key =>
    insertion_sort_Sorted key (key_le key)
      (fun x y H => H) (key_le_false_le key)
|}.

Definition tie_reversing_pandas : SortValues := {|
  sort_values := fun A key => insertion_sort (key_lt key);
  sort_values_Permutation := fun A key =>
    insertion_sort_Permutation (key_lt key);
  sort_values_Sorted := fun A key =>
    insertion_sort_Sorted key (key_lt key)
      (key_lt_le key) (key_lt_false_le key)
|}.

(** ** The zoom level *)

(** The value that [np.interp] gives [GeoApp.get_zoom_level] for a finite
    threshold. *)
Definition zoom_q (q : Q) : Q :=
  if Qle_bool 0.1 q then
    if Qle_bool 10 q then 12
    else if Qeq_bool 0.1 q then 17
    else ((12 - 17) / (10 - 0.1) * (q - 0.1) + 17)%Q
  else 17.

Definition zoom_of (x : float) : Q :=
  match x with
  | NegInf => 17
  | PosInf => 12
  | Finite q => zoom_q q
  | NaN => 0
  end.

Lemma Qle_bool_false (a b : Q) : Qle_bool a b = false -> (b < a)%Q.
Proof.
  intros H. destruct (Qlt_le_dec b a) as [L | L]; trivial.
  apply Qle_bool_iff in L. congruence.
Qed.

Lemma get_zoom_level_finite (q : Q) :
  GeoApp.get_zoom_level (Finite q)
  = Ok (Z.quot (Qnum (zoom_q q)) (Zpos (Qden (zoom_q q)))).
Proof.
  unfold GeoApp.get_zoom_level, zoom_q. cbn [np.interp np.interp_from].
  destruct (Qle_bool 0.1 q);
    [destruct (Qle_bool 10 q); [| destruct (Qeq_bool 0.1 q)] |];
    reflexivity.
Qed.

Lemma zoom_q_slope (q : Q) :
  ((12 - 17) / (10 - 0.1) * (q - 0.1) + 17 == 17 - (50 # 99) * (q - 0.1))%Q.
Proof. field. Qed.

Ltac decide_Q c :=
  let E := fresh "E" in
  destruct c eqn:E;
  [ first [apply Qle_bool_iff in E | apply Qeq_bool_iff in E]
  | first [apply Qle_bool_false in E | apply Qeq_bool_neq in E] ].

Lemma zoom_q_range (q : Q) : (12 <= zoom_q q <= 17)%Q.
Proof.
  unfold zoom_q.
  decide_Q (Qle_bool 0.1 q); [| lra].
  decide_Q (Qle_bool 10 q); [lra |].
  decide_Q (Qeq_bool 0.1 q); [lra |].
  rewrite zoom_q_slope. lra.
Qed.


(** On a number that is not negative, truncation is the floor. *)
Lemma trunc_floor (v : Q) :
  (0 <= v)%Q -> Z.quot (Qnum v) (Zpos (Qden v)) = Qfloor v.
Proof.
  intros H. destruct v as [n d]. simpl.
  apply Z.quot_div_nonneg; [| reflexivity].
  unfold Qle in H. simpl in H. lia.
Qed.

Lemma floor_between (v : Q) (lo hi : Z) :
  (inject_Z lo <= v <= inject_Z hi)%Q -> lo <= Qfloor v <= hi.
Proof.
  intros [L H]. split.
  - rewrite <- (Qfloor_Z lo). now apply Qfloor_resp_le.
  - rewrite <- (Qfloor_Z hi). now apply Qfloor_resp_le.
Qed.

Lemma zoom_of_range (x : float) : (12 <= zoom_of x <= 17)%Q \/ x = NaN.
Proof.
  destruct x; simpl; auto; left; try lra. apply zoom_q_range.
Qed.

Lemma get_zoom_level_floor (x : float) :
  x <> NaN -> GeoApp.get_zoom_level x = Ok (Qfloor (zoom_of x)).
Proof.
  intros Hx. destruct x; try congruence; try reflexivity.
  rewrite get_zoom_level_finite. simpl zoom_of.
  rewrite trunc_floor; trivial.
  pose proof (zoom_q_range q). lra.
Qed.





Example get_zoom_level_examples :
  map GeoApp.get_zoom_level
      [Finite 0.05; Finite 0.1; Finite 2; Finite 5; Finite 9.99; Finite 10;
       Finite 250; PosInf]
  = map Ok [17; 17; 16; 14; 12; 12; 12; 12].
Proof. reflexivity. Qed.

(** ** The proximity filter *)

Lemma StronglySorted_weaken {A : Type} (R R' : A -> A -> Prop) (P : A -> Prop)
      (l : list A) :
  (forall a b, P a -> P b -> R a b -> R' a b) ->
  Forall P l -> StronglySorted R l -> StronglySorted R' l.
Proof.
  intros HR HP HS. induction HS as [| a l HS IH Ha]; constructor.
  - apply IH. now inversion HP.
  - inversion HP as [| ? ? Pa Pl]; subst.
    rewrite Forall_forall in *. intros b Hb. apply HR; auto.
Qed.



Section Filter.

Context {pandas : SortValues}.
Variable world : World.
Variables user_latitude user_longitude proximity_threshold : float.

(** Distance to the query coordinate, the test of the filter, and the row
    with its [proximity] filled in. *)
Definition dist : Row.t -> float :=
  GeoApp.distance_to world user_latitude user_longitude.
Definition within (row : Row.t) : bool :=
  (dist row <=? proximity_threshold)%float.
Definition annotate (row : Row.t) : Row.t :=
  GeoApp.set_proximity (dist row) row.

Lemma dist_annotate (row : Row.t) : dist (annotate row) = dist row.
Proof. reflexivity. Qed.

Lemma proximity_of_annotate (row : Row.t) :
  proximity_of (annotate row) = dist row.
Proof. reflexivity. Qed.

Lemma filter_locations_Permutation (location_data : DataFrame) :
  Permutation
    (GeoApp.filter_locations world location_data user_latitude user_longitude
                             proximity_threshold)
    (map annotate (filter within location_data)).
Proof.
  unfold GeoApp.filter_locations. fold dist. fold within. fold annotate.
  destruct (filter within location_data) as [| row rest] eqn:E; simpl.
  - reflexivity.
  - apply sort_values_Permutation.
Qed.

Lemma filter_locations_In (location_data : DataFrame) (row : Row.t) :
  In row (GeoApp.filter_locations world location_data user_latitude
                                  user_longitude proximity_threshold) ->
  exists source, In source location_data /\ within source = true
                 /\ row = annotate source.
Proof.
  intros H.
  apply (Permutation_in _ (filter_locations_Permutation location_data)) in H.
  apply in_map_iff in H. destruct H as [source [E H]].
  apply filter_In in H. destruct H as [H W].
  exists source. auto.
Qed.

Lemma filter_locations_rows (location_data : DataFrame) :
  Forall (fun row => within row = true /\ proximity_of row = dist row)
    (GeoApp.filter_locations world location_data user_latitude user_longitude
                             proximity_threshold).
Proof.
  apply Forall_forall. intros row H.
  apply filter_locations_In in H. destruct H as [source [_ [W E]]].
  subst row. split; [exact W | reflexivity].
Qed.

Lemma filter_locations_Sorted (location_data : DataFrame) :
  Sorted (fun r s => sort_le (proximity_of r) (proximity_of s) = true)
    (GeoApp.filter_locations world location_data user_latitude user_longitude
                             proximity_threshold).
Proof.
  unfold GeoApp.filter_locations.
  destruct (filter _ location_data) as [| row rest]; simpl.
  - constructor.
  - apply sort_values_Sorted.
Qed.

Lemma filter_locations_StronglySorted (location_data : DataFrame) :
  StronglySorted (fun r s => (dist r <=? dist s)%float = true)
    (GeoApp.filter_locations world location_data user_latitude user_longitude
                             proximity_threshold).
Proof.
  apply StronglySorted_weaken
    with (R := fun r s => sort_le (proximity_of r) (proximity_of s) = true)
         (P := fun row => within row = true /\ proximity_of row = dist row).
  - intros a b [Wa Ea] [Wb Eb] H. rewrite Ea, Eb in H.
    apply sort_le_fleb; trivial.
    apply (fleb_not_nan_l _ _ Wb).
  - apply filter_locations_rows.
  - apply Sorted_StronglySorted.
    + intros a b c. apply sort_le_trans.
    + apply filter_locations_Sorted.
Qed.

(** C1, amended: for a positive threshold, every record that either
    [filter_locations] returns lies within the threshold of the query
    coordinate; the records of [GeoApp.filter_locations] come in
    non-decreasing distance, those of [GeoAppCmd.filter_locations] in the
    order of the table. *)
Theorem filter_locations_within_and_sorted (location_data : DataFrame) :
  (float_of_Z 0 <? proximity_threshold)%float = true ->
  let gui :=
    GeoApp.filter_locations world location_data user_latitude user_longitude
                            proximity_threshold in
  let cmd :=
    GeoAppCmd.filter_locations world location_data user_latitude
                               user_longitude proximity_threshold in
  Forall (fun row => (dist row <=? proximity_threshold)%float = true) gui
  /\ StronglySorted (fun r s => (dist r <=? dist s)%float = true) gui
  /\ Forall (fun row => (dist row <=? proximity_threshold)%float = true) cmd
  /\ cmd = filter within location_data.
Proof.
  intros _. cbv zeta. repeat split.
  - eapply Forall_impl; [| apply filter_locations_rows].
    intros row [W _]. exact W.
  - apply filter_locations_StronglySorted.
  - apply Forall_forall. intros row H.
    apply filter_In in H. apply H.
Qed.

(** C9: when the threshold is at least the distance to every record of the
    table, [GeoApp.filter_locations] returns as many records as the table
    holds. *)
Theorem filter_locations_keeps_all (location_data : DataFrame) :
  Forall (fun row => (dist row <=? proximity_threshold)%float = true)
         location_data ->
  List.length
    (GeoApp.filter_locations world location_data user_latitude
                             user_longitude proximity_threshold)
  = List.length location_data.
Proof.
  intros H.
  rewrite (Permutation_length (filter_locations_Permutation location_data)).
  rewrite length_map. f_equal.
  apply forallb_filter_id. apply forallb_forall.
  rewrite Forall_forall in H. exact H.
Qed.


End Filter.

(** A threshold that lets a record through is a number, so the zoom level of
    the map drawn for a result that is not empty is always defined. *)
Lemma nonempty_result_zoom_level {pandas : SortValues} (world : World)
      (location_data : DataFrame) (lat lng thr : float) :
  GeoApp.filter_locations world location_data lat lng thr <> [] ->
  exists zoom : Z, GeoApp.get_zoom_level thr = Ok zoom /\ 12 <= zoom <= 17.
Proof.
  intros Hne.
  pose proof (filter_locations_rows world lat lng thr location_data) as Hrows.
  destruct (GeoApp.filter_locations world location_data lat lng thr)
    as [| row rest]; [congruence |].
  inversion Hrows as [| ? ? [Hw _] _]; subst.
  apply fleb_not_nan_r in Hw.
  exists (Qfloor (zoom_of thr)). split.
  - now apply get_zoom_level_floor.
  - destruct (zoom_of_range thr) as [R | ?]; [| contradiction].
    now apply (floor_between _ 12 17).
Qed.

(** The table [jurong; orchard], queried from [downtown] with 20 km. *)
Lemma filter_locations_jurong_orchard :
  let world := Sample.world [] None None in
  let lat := Finite 1.30 in
  let lng := Finite 103.80 in
  let gui :=
    GeoApp.filter_locations (pandas := stable_pandas) world
      [Sample.jurong; Sample.orchard] lat lng (Finite 20) in
  let cmd :=
    GeoAppCmd.filter_locations world [Sample.jurong; Sample.orchard] lat lng
                               (Finite 20) in
  Forall (fun row => (dist world lat lng row <=? Finite 20)%float = true) gui
  /\ StronglySorted
       (fun r s => (dist world lat lng r <=? dist world lat lng s)%float = true)
       gui
  /\ Forall (fun row => (dist world lat lng row <=? Finite 20)%float = true) cmd
  /\ cmd = filter (within world lat lng (Finite 20))
                  [Sample.jurong; Sample.orchard].
Proof.
  apply (filter_locations_within_and_sorted (pandas := stable_pandas)).
  reflexivity.
Defined.

(** C1, as the claim has it, fails for [GeoAppCmd.filter_locations], which
    does not sort: from [downtown], [jurong] (10.1 km) comes back before
    [orchard] (4 km), as the table has them. *)
Lemma cmd_filter_locations_not_sorted :
  let world := Sample.world [] None None in
  let lat := Finite 1.30 in
  let lng := Finite 103.80 in
  (float_of_Z 0 <? Finite 20)%float = true
  /\ GeoAppCmd.filter_locations world [Sample.jurong; Sample.orchard] lat lng
                                (Finite 20)
     = [Sample.jurong; Sample.orchard]
  /\ (dist world lat lng Sample.jurong <=? dist world lat lng Sample.orchard)%float
     = false.
Proof. repeat split. Qed.

(** A threshold of 1000 km keeps all three rows. *)
Lemma filter_locations_keeps_all_three :
  let world := Sample.world [] None None in
  let table := [Sample.changi; Sample.orchard; Sample.jurong] in
  Forall (fun row =>
            (dist world (Finite 1.30) (Finite 103.80) row <=? Finite 1000)%float
            = true) table
  /\ List.length
       (GeoApp.filter_locations (pandas := tie_reversing_pandas) world table
          (Finite 1.30) (Finite 103.80) (Finite 1000))
     = 3%nat.
Proof.
  assert (H : Forall (fun row =>
            (dist (Sample.world [] None None) (Finite 1.30) (Finite 103.80) row
             <=? Finite 1000)%float = true)
            [Sample.changi; Sample.orchard; Sample.jurong])
    by (repeat constructor).
  split; [exact H |].
  exact (filter_locations_keeps_all (pandas := tie_reversing_pandas)
           _ _ _ _ _ H).
Defined.


(** With a sort that is stable the same call gives the table order. *)
Example filter_locations_ties_under_a_stable_sort :
  let world := Sample.world [] None None in
  let lat := Finite 1.30 in
  let lng := Finite 103.80 in
  GeoApp.filter_locations (pandas := stable_pandas) world
    [Sample.north; Sample.east] lat lng (Finite 2)
  = [annotate world lat lng Sample.north; annotate world lat lng Sample.east].
Proof. reflexivity. Qed.


(** ** Traces *)

Lemma trace_bind {A B : Type} (m : M A) (k : A -> M B) :
  trace (bind m k)
  = trace m ++ match outcome m with Ok a => trace (k a) | Raised _ => [] end.
Proof.
  destruct m as [t [a | e]]; simpl.
  - destruct (k a); reflexivity.
  - now rewrite app_nil_r.
Qed.

Lemma outcome_bind {A B : Type} (m : M A) (k : A -> M B) :
  outcome (bind m k)
  = match outcome m with Ok a => outcome (k a) | Raised e => Raised e end.
Proof.
  destruct m as [t [a | e]]; simpl; trivial.
  destruct (k a); reflexivity.
Qed.

Lemma map_at_no_call (lat lng : float) (service : geocoder) (t : list event) :
  Forall (map_at lat lng) t -> filter (is_geocoder_call service) t = [].
Proof.
  induction 1 as [| e t He _ IH]; simpl; trivial.
  destruct e; simpl in *; try contradiction; trivial.
Qed.

Lemma map_at_no_dialog (lat lng : float) (t : list event) :
  Forall (map_at lat lng) t -> Forall (fun e => is_error_dialog e = false) t.
Proof.
  apply Forall_impl. intros []; simpl; trivial; contradiction.
Qed.

Lemma no_dialog_split (t before after : list event) (message : string) :
  Forall (fun e => is_error_dialog e = false) t ->
  t <> before ++ ErrorDialog message :: after.
Proof.
  intros H E. subst t. apply Forall_app in H. destruct H as [_ H].
  inversion H. discriminate.
Qed.

Lemma dialog_split (pre before after : list event)
      (last_message message : string) :
  Forall (fun e => is_error_dialog e = false) pre ->
  pre ++ [ErrorDialog last_message] = before ++ ErrorDialog message :: after ->
  before = pre.
Proof.
  intros H. revert before.
  induction H as [| e pre He _ IH]; intros before E.
  - destruct before as [| b before]; trivial.
    simpl in E. inversion E. now destruct before.
  - destruct before as [| b before]; simpl in E; inversion E; subst.
    + discriminate.
    + f_equal. now apply IH.
Qed.

(** ** process_user_input, branch by branch *)

Section ProcessUserInput.

Context {pandas : SortValues}.
Variable world : World.

(** The part of [process_user_input] that follows a resolution inside
    Singapore. *)
Definition render (location_data : DataFrame) (input_address : string)
           (user_latitude user_longitude proximity_threshold : float)
           (map_type : string) : M unit :=
  let filtered_locations :=
    GeoApp.filter_locations world location_data user_latitude user_longitude
                            proximity_threshold in
  if negb (empty filtered_locations) then
    GeoApp.print_addresses filtered_locations proximity_threshold ;;
    GeoApp.call_display_map world (Some filtered_locations) input_address
                            user_latitude user_longitude
                            proximity_threshold (Some map_type)
  else
    GeoApp.call_display_map world None input_address user_latitude
                            user_longitude proximity_threshold None ;;
    GeoApp.display_error_message
      "No locations found within the specified proximity.".

(** What every valid submission starts with. *)
Definition prefix (postal_code : option string) : list event :=
  [LocationDataLoaded; SpacyModelLoaded; GeocoderCalled Nominatim postal_code].

Definition geocoded (service : geocoder) (postal_code : option string)
           (l : Location.t) : event :=
  Console (Geocoded service postal_code
                    (Location.latitude l) (Location.longitude l)).

Definition in_sg (l : Location.t) : bool :=
  GeoApp.check_location_in_sg (Location.latitude l) (Location.longitude l).

Lemma check_user_input_cases (input_address text : string) :
  (GeoApp.check_user_input world input_address text = ([], Ok true)
   /\ exists value, float_of_string world text = Some value
                    /\ (value <=? float_of_Z 0)%float = false)
  \/ exists message,
       GeoApp.check_user_input world input_address text
       = ([ErrorDialog message], Ok false).
Proof.
  unfold GeoApp.check_user_input.
  destruct (input_address =? "")%string; [right; eexists; reflexivity |].
  destruct (text =? "")%string; [right; eexists; reflexivity |].
  destruct (float_of_string world text) as [value |];
    [| right; eexists; reflexivity].
  destruct (value <=? float_of_Z 0)%float eqn:E;
    [right; eexists; reflexivity |].
  left. split; trivial. now exists value.
Qed.

Lemma check_user_input_true (input_address text : string) :
  outcome (GeoApp.check_user_input world input_address text) = Ok true ->
  GeoApp.check_user_input world input_address text = ([], Ok true)
  /\ exists value, float_of_string world text = Some value
                   /\ (value <=? float_of_Z 0)%float = false.
Proof.
  intros H. destruct (check_user_input_cases input_address text)
    as [Hvalid | [message E]]; trivial.
  rewrite E in H. discriminate H.
Qed.

Lemma process_user_input_rejected (input_address text map_type message : string) :
  GeoApp.check_user_input world input_address text
  = ([ErrorDialog message], Ok false) ->
  GeoApp.process_user_input world input_address text map_type
  = ([ErrorDialog message], Ok tt).
Proof.
  intros H. unfold GeoApp.process_user_input. rewrite H. reflexivity.
Qed.

Lemma process_user_input_valid (input_address text map_type : string)
      (value : float) :
  GeoApp.check_user_input world input_address text = ([], Ok true) ->
  float_of_string world text = Some value ->
  GeoApp.process_user_input world input_address text map_type =
  let postal_code := GeoApp.extract_postal_code world input_address in
  match nominatim_geocode world postal_code with
  | None =>
      (prefix postal_code
         ++ [ErrorDialog "Unable to retrieve coordinates for the address"],
       Ok tt)
  | Some l =>
      if in_sg l then
        (prefix postal_code ++ [geocoded Nominatim postal_code l], Ok tt) ;;
        render (locations_pkl world) input_address (Location.latitude l)
               (Location.longitude l) value map_type
      else
        match pgeocode_query world postal_code with
        | None =>
            (prefix postal_code
               ++ [geocoded Nominatim postal_code l;
                   GeocoderCalled Pgeocode postal_code],
             Raised (AttributeError
                       "'NoneType' object has no attribute 'latitude'"))
        | Some l2 =>
            if in_sg l2 then
              (prefix postal_code
                 ++ [geocoded Nominatim postal_code l;
                     GeocoderCalled Pgeocode postal_code;
                     geocoded Pgeocode postal_code l2], Ok tt) ;;
              render (locations_pkl world) input_address
                     (Location.latitude l2) (Location.longitude l2) value
                     map_type
            else
              (prefix postal_code
                 ++ [geocoded Nominatim postal_code l;
                     GeocoderCalled Pgeocode postal_code;
                     geocoded Pgeocode postal_code l2;
                     ErrorDialog
                       "Unable to retrieve valid coordinates in Singapore"],
               Ok tt)
        end
  end.
Proof.
  intros Hcheck Hfloat.
  unfold GeoApp.process_user_input. rewrite Hcheck, Hfloat.
  cbn [bind ret app].
  unfold GeoApp.load_location_data, GeoApp.load_spacy_model.
  cbn [bind ret emit app].
  unfold GeoApp.address_to_lat_long at 1.
  cbn [String.eqb Ascii.eqb Bool.eqb].
  cbv zeta. unfold in_sg.
  destruct (nominatim_geocode world _) as [l |]; [| reflexivity].
  cbn [bind ret emit app GeoApp.coordinates_of].
  destruct (GeoApp.check_location_in_sg (Location.latitude l)
                                        (Location.longitude l));
    cbn [Bool.eqb bind ret app].
  - fold (render (locations_pkl world) input_address (Location.latitude l)
                 (Location.longitude l) value map_type).
    destruct (render _ _ _ _ _ _). reflexivity.
  - unfold GeoApp.address_to_lat_long.
    cbn [String.eqb Ascii.eqb Bool.eqb].
    destruct (pgeocode_query world _) as [l2 |]; [| reflexivity].
    cbn [bind ret emit app GeoApp.coordinates_of].
    destruct (GeoApp.check_location_in_sg (Location.latitude l2)
                                          (Location.longitude l2));
      cbn [Bool.eqb bind ret app]; [| reflexivity].
    fold (render (locations_pkl world) input_address (Location.latitude l2)
                 (Location.longitude l2) value map_type).
    destruct (render _ _ _ _ _ _). reflexivity.
Qed.

Lemma print_addresses_console (df : DataFrame) (proximity_threshold : float) :
  Forall (fun e => is_console e = true)
         (trace (GeoApp.print_addresses df proximity_threshold))
  /\ outcome (GeoApp.print_addresses df proximity_threshold) = Ok tt.
Proof.
  unfold GeoApp.print_addresses.
  assert (H : forall l,
             Forall (fun e => is_console e = true)
               (trace (fold_right (fun address rest => print address ;; rest)
                                  (ret tt) l))
             /\ outcome (fold_right (fun address rest => print address ;; rest)
                                    (ret tt) l) = Ok tt).
  { induction l as [| a l [IH1 IH2]]; cbn [fold_right].
    - split; [constructor | reflexivity].
    - rewrite trace_bind, outcome_bind. split; [| exact IH2].
      constructor; trivial. }
  destruct (H (map Row.address df)) as [H1 H2].
  rewrite ?trace_bind, ?outcome_bind. cbn [emit print outcome trace fst snd].
  rewrite ?trace_bind, ?outcome_bind, H2. cbn [emit print outcome trace fst snd].
  split; trivial.
  repeat constructor. apply Forall_app. split; trivial. repeat constructor.
Qed.

Lemma add_child_location (m : folium.Map) (child : map_element) :
  folium.location (add_child m child) = folium.location m.
Proof. reflexivity. Qed.

Lemma add_polyline_location (m : folium.Map) (df : option DataFrame)
      (lat lng : float) :
  folium.location (GeoApp.add_polyline_to_map m df lat lng) = folium.location m.
Proof.
  unfold GeoApp.add_polyline_to_map.
  destruct df as [df |]; trivial.
  destruct (negb (empty df)); trivial.
  generalize (filter (fun row =>
                        (proximity_of row
                         =? column_min (map proximity_of df))%float) df).
  intros l. revert m. induction l as [| r l IH]; intros m; simpl; trivial.
  now rewrite IH.
Qed.

Lemma create_folium_map_result (df : option DataFrame) (input_address : string)
      (lat lng thr : float) (map_type : string) :
  match GeoApp.get_zoom_level thr with
  | Ok zoom =>
      exists m, GeoApp.create_folium_map df input_address lat lng thr map_type
                = ([], Ok m)
                /\ folium.location m = (lat, lng)
  | Raised e =>
      GeoApp.create_folium_map df input_address lat lng thr map_type
      = ([], Raised e)
  end.
Proof.
  unfold GeoApp.create_folium_map.
  destruct (GeoApp.get_zoom_level thr) as [zoom | e]; [| reflexivity].
  cbn [lift bind ret app]. eexists. split; [reflexivity |].
  unfold GeoApp.add_proximity_circle_to_map, GeoApp.add_input_marker_to_map.
  rewrite !add_child_location.
  destruct df as [rows |]; trivial.
  destruct (map_type =? "Heat Density")%string; trivial.
  destruct (map_type =? "Clusters")%string; trivial.
  destruct (map_type =? "Proximity")%string; trivial.
  now rewrite add_polyline_location.
Qed.

Lemma display_map_events (df : option DataFrame) (input_address : string)
      (lat lng thr : float) (map_type : string) :
  Forall (map_at lat lng)
         (trace (GeoApp.display_map world df input_address lat lng thr
                                    map_type)).
Proof.
  unfold GeoApp.display_map.
  pose proof (create_folium_map_result df input_address lat lng thr map_type)
    as H.
  destruct (GeoApp.get_zoom_level thr) as [zoom | e].
  - destruct H as [m [E L]]. rewrite E. simpl. repeat constructor. exact L.
  - rewrite H. simpl. repeat constructor.
Qed.

Lemma render_events (location_data : DataFrame) (input_address : string)
      (lat lng thr : float) (map_type : string) :
  Forall (map_at lat lng)
         (trace (render location_data input_address lat lng thr map_type)).
Proof.
  unfold render.
  destruct (negb (empty _)).
  - rewrite trace_bind.
    destruct (print_addresses_console
                (GeoApp.filter_locations world location_data lat lng thr) thr)
      as [Hc Ho].
    rewrite Ho. apply Forall_app. split.
    + eapply Forall_impl; [| exact Hc].
      intros [] He; try discriminate He. exact I.
    + apply display_map_events.
  - constructor.
Qed.

Lemma render_empty (location_data : DataFrame) (input_address : string)
      (lat lng thr : float) (map_type : string) :
  empty (GeoApp.filter_locations world location_data lat lng thr) = true ->
  render location_data input_address lat lng thr map_type
  = ([], Raised (TypeError
       "display_map() missing 1 required positional argument: 'map_type'")).
Proof.
  intros H. unfold render. rewrite H. reflexivity.
Qed.

End ProcessUserInput.

(** ** Validation, fallback and rendering *)

Section Pipeline.

Context {pandas : SortValues}.
Variable world : World.

(** C5: when the text of the proximity field is not a number, or is a number
    that is zero or negative, [check_user_input] shows an error dialog and
    returns [False], and [process_user_input] does nothing else: no geocoder
    is called. *)
Theorem invalid_threshold_rejected_before_geocoding
        (input_address text map_type : string) :
  float_of_string world text = None
  \/ (exists value, float_of_string world text = Some value
                    /\ (value <=? float_of_Z 0)%float = true) ->
  exists message,
    GeoApp.check_user_input world input_address text
    = ([ErrorDialog message], Ok false)
    /\ GeoApp.process_user_input world input_address text map_type
       = ([ErrorDialog message], Ok tt)
    /\ forall service,
         filter (is_geocoder_call service)
                (trace (GeoApp.process_user_input world input_address text
                                                  map_type)) = [].
Proof.
  intros Hbad.
  destruct (check_user_input_cases world input_address text)
    as [[_ [value [Hsome Hpos]]] | [message Hrejected]].
  - exfalso. destruct Hbad as [Hnone | [value' [Hsome' Hneg]]]; congruence.
  - exists message. split; [exact Hrejected |].
    rewrite (process_user_input_rejected world _ _ map_type _ Hrejected).
    split; [reflexivity |]. intros service. reflexivity.
Qed.

(** C2: when the submission is valid and the coordinate that the primary
    geocoder resolves lies outside the bounding box, the trace of
    [process_user_input] holds exactly one call of pgeocode, and any error
    dialog comes after it. *)
Theorem fallback_attempted_exactly_once
        (input_address text map_type : string) (l : Location.t) :
  outcome (GeoApp.check_user_input world input_address text) = Ok true ->
  nominatim_geocode world (GeoApp.extract_postal_code world input_address)
  = Some l ->
  GeoApp.check_location_in_sg (Location.latitude l) (Location.longitude l)
  = false ->
  let events :=
    trace (GeoApp.process_user_input world input_address text map_type) in
  List.length (filter (is_geocoder_call Pgeocode) events) = 1%nat
  /\ forall before message after,
       events = before ++ ErrorDialog message :: after ->
       In (GeocoderCalled Pgeocode
             (GeoApp.extract_postal_code world input_address)) before.
Proof.
  intros Hvalid Hgeo Hout.
  apply check_user_input_true in Hvalid.
  destruct Hvalid as [Hcheck [value [Hfloat _]]].
  cbv zeta.
  rewrite (process_user_input_valid world _ _ _ _ Hcheck Hfloat).
  cbv zeta. rewrite Hgeo. unfold in_sg. rewrite Hout.
  set (pc := GeoApp.extract_postal_code world input_address).
  destruct (pgeocode_query world pc) as [l2 |].
  - destruct (GeoApp.check_location_in_sg (Location.latitude l2)
                                          (Location.longitude l2)).
    + rewrite trace_bind. cbn [outcome trace fst snd].
      pose proof (render_events world (locations_pkl world) input_address
                    (Location.latitude l2) (Location.longitude l2)
                    value map_type) as Hr.
      split.
      * rewrite filter_app, (map_at_no_call _ _ _ _ Hr). reflexivity.
      * intros before message after E. exfalso.
        eapply no_dialog_split; [| exact E].
        apply Forall_app. split; [repeat constructor |].
        eapply map_at_no_dialog, Hr.
    + cbn [trace fst]. split; [reflexivity |].
      intros before message after E.
      change (prefix pc ++ [geocoded Nominatim pc l;
                GeocoderCalled Pgeocode pc; geocoded Pgeocode pc l2;
                ErrorDialog "Unable to retrieve valid coordinates in Singapore"])
        with ((prefix pc ++ [geocoded Nominatim pc l;
                GeocoderCalled Pgeocode pc; geocoded Pgeocode pc l2])
              ++ [ErrorDialog
                    "Unable to retrieve valid coordinates in Singapore"]) in E.
      apply dialog_split in E; [| repeat constructor].
      subst before. simpl. tauto.
  - cbn [trace fst]. split; [reflexivity |].
    intros before message after E. exfalso.
    eapply no_dialog_split; [| exact E]. repeat constructor.
Qed.


(** The half of C7 that the code honours: a fallback coordinate outside the
    bounding box (NaN included) ends in the dialog "Unable to retrieve valid
    coordinates in Singapore". *)
Lemma fallback_out_of_bounds_reported
      (input_address text map_type : string) (l l2 : Location.t) :
  outcome (GeoApp.check_user_input world input_address text) = Ok true ->
  nominatim_geocode world (GeoApp.extract_postal_code world input_address)
  = Some l ->
  in_sg l = false ->
  pgeocode_query world (GeoApp.extract_postal_code world input_address)
  = Some l2 ->
  in_sg l2 = false ->
  exists before,
    GeoApp.process_user_input world input_address text map_type
    = (before
         ++ [ErrorDialog "Unable to retrieve valid coordinates in Singapore"],
       Ok tt).
Proof.
  intros Hvalid Hgeo Hout Hpg Hout2.
  apply check_user_input_true in Hvalid.
  destruct Hvalid as [Hcheck [value [Hfloat _]]].
  rewrite (process_user_input_valid world _ _ _ _ Hcheck Hfloat).
  cbv zeta. rewrite Hgeo, Hout, Hpg, Hout2.
  eexists (_ :: _ :: _ :: _ :: _ :: [_]). reflexivity.
Qed.

(** The other half: a fallback that returns nothing makes the method raise,
    with no dialog shown. *)
Lemma fallback_without_result_raises
      (input_address text map_type : string) (l : Location.t) :
  outcome (GeoApp.check_user_input world input_address text) = Ok true ->
  nominatim_geocode world (GeoApp.extract_postal_code world input_address)
  = Some l ->
  in_sg l = false ->
  pgeocode_query world (GeoApp.extract_postal_code world input_address)
  = None ->
  let run := GeoApp.process_user_input world input_address text map_type in
  outcome run
  = Raised (AttributeError "'NoneType' object has no attribute 'latitude'")
  /\ filter is_error_dialog (trace run) = [].
Proof.
  intros Hvalid Hgeo Hout Hpg.
  apply check_user_input_true in Hvalid.
  destruct Hvalid as [Hcheck [value [Hfloat _]]].
  cbv zeta. rewrite (process_user_input_valid world _ _ _ _ Hcheck Hfloat).
  cbv zeta. rewrite Hgeo, Hout, Hpg. split; reflexivity.
Qed.

(** A valid submission resolved inside Singapore by the primary geocoder,
    with no record within the threshold: the call of [display_map] raises,
    so neither a map nor the dialog appears. *)
Lemma empty_result_raises
      (input_address text map_type : string) (value : float) (l : Location.t) :
  outcome (GeoApp.check_user_input world input_address text) = Ok true ->
  float_of_string world text = Some value ->
  nominatim_geocode world (GeoApp.extract_postal_code world input_address)
  = Some l ->
  in_sg l = true ->
  GeoApp.filter_locations world (locations_pkl world) (Location.latitude l)
                          (Location.longitude l) value = [] ->
  let run := GeoApp.process_user_input world input_address text map_type in
  outcome run
  = Raised (TypeError
      "display_map() missing 1 required positional argument: 'map_type'")
  /\ filter is_map_event (trace run) = []
  /\ filter is_error_dialog (trace run) = [].
Proof.
  intros Hvalid Hfloat Hgeo Hin Hempty.
  apply check_user_input_true in Hvalid. destruct Hvalid as [Hcheck _].
  cbv zeta. rewrite (process_user_input_valid world _ _ _ _ Hcheck Hfloat).
  cbv zeta. rewrite Hgeo, Hin.
  rewrite render_empty by (now rewrite Hempty).
  repeat split.
Qed.

(** The map that [display_map] would draw for no locations, were it called
    with a map style: the input marker, the proximity circle and the scale
    control, and nothing else. *)
Lemma create_folium_map_without_locations
      (input_address map_type : string) (latitude longitude : float) :
  GeoApp.create_folium_map None input_address latitude longitude (Finite 2)
                           map_type
  = ([], Ok (folium.mk (latitude, longitude) 16
               [InputMarker (latitude, longitude) input_address;
                Circle (latitude, longitude) (Finite (2 * 1000));
                MeasureControl])).
Proof. reflexivity. Qed.

(** [check_location_in_sg] is the test of the box. *)
Lemma check_location_in_sg_iff (latitude longitude : float) :
  GeoApp.check_location_in_sg latitude longitude = true <->
  exists lat lng : Q,
    latitude = Finite lat /\ longitude = Finite lng
    /\ (1.15 <= lat <= 1.47)%Q /\ (103.6 <= lng <= 104.1)%Q.
Proof.
  unfold GeoApp.check_location_in_sg, GeoApp.min_lat_sg, GeoApp.max_lat_sg,
    GeoApp.min_lng_sg, GeoApp.max_lng_sg.
  split.
  - destruct latitude as [| | lat |], longitude as [| | lng |];
      simpl; try discriminate;
      try (destruct (Qle_bool 1.15 lat && Qle_bool lat 1.47); discriminate).
    intros H. exists lat, lng.
    destruct (Qle_bool 1.15 lat) eqn:E1; [| discriminate].
    destruct (Qle_bool lat 1.47) eqn:E2; [| discriminate].
    destruct (Qle_bool 103.6 lng) eqn:E3; [| discriminate].
    destruct (Qle_bool lng 104.1) eqn:E4; [| discriminate].
    apply Qle_bool_iff in E1, E2, E3, E4. auto.
  - intros [lat [lng [-> [-> [[H1 H2] [H3 H4]]]]]]. simpl.
    apply Qle_bool_iff in H1, H2, H3, H4. now rewrite H1, H2, H3, H4.
Qed.

(** C8, amended: every map that [GeoApp.process_user_input] saves is centred
    on a coordinate that passed [check_location_in_sg], and that test is true
    exactly for a latitude in [1.15, 1.47] and a longitude in [103.6, 104.1].
    ([GeoAppCmd.run] has no such test.) *)
Theorem map_rendered_only_inside_bounding_box :
  (forall (input_address text map_type : string) (m : folium.Map)
          (map_filepath : string),
      In (MapSaved m map_filepath)
         (trace (GeoApp.process_user_input world input_address text map_type))
      -> GeoApp.check_location_in_sg (fst (folium.location m))
                                     (snd (folium.location m)) = true)
  /\ (forall latitude longitude : float,
         GeoApp.check_location_in_sg latitude longitude = true <->
         exists lat lng : Q,
           latitude = Finite lat /\ longitude = Finite lng
           /\ (1.15 <= lat <= 1.47)%Q /\ (103.6 <= lng <= 104.1)%Q).
Proof.
  split; [| exact check_location_in_sg_iff].
  intros input_address text map_type m map_filepath.
  assert (Hrender : forall ld lat lng value pre,
             GeoApp.check_location_in_sg lat lng = true ->
             Forall (fun e => is_console e = true
                              \/ is_geocoder_call Nominatim e = true
                              \/ is_geocoder_call Pgeocode e = true
                              \/ e = LocationDataLoaded
                              \/ e = SpacyModelLoaded) pre ->
             In (MapSaved m map_filepath)
                (trace ((pre, Ok tt) ;;
                        render world ld input_address lat lng value map_type))
             -> GeoApp.check_location_in_sg (fst (folium.location m))
                                            (snd (folium.location m)) = true).
  { intros ld lat lng value pre Hin Hpre H.
    rewrite trace_bind in H. cbn [outcome trace fst snd] in H.
    apply in_app_or in H. destruct H as [H | H].
    - rewrite Forall_forall in Hpre. apply Hpre in H.
      simpl in H. intuition discriminate.
    - pose proof (render_events world ld input_address lat lng value map_type)
        as Hr.
      rewrite Forall_forall in Hr. apply Hr in H. simpl in H.
      now rewrite H. }
  destruct (check_user_input_cases world input_address text)
    as [[Hcheck [value [Hfloat _]]] | [message Hrejected]].
  - rewrite (process_user_input_valid world _ _ _ _ Hcheck Hfloat).
    cbv zeta.
    destruct (nominatim_geocode world _) as [l |].
    + destruct (in_sg l) eqn:E1.
      * apply Hrender; [exact E1 |].
        unfold prefix, geocoded. simpl.
        repeat (apply Forall_cons; [simpl; auto 6 |]). apply Forall_nil.
      * destruct (pgeocode_query world _) as [l2 |].
        -- destruct (in_sg l2) eqn:E2.
           ++ apply Hrender; [exact E2 |].
              unfold prefix, geocoded. simpl.
              repeat (apply Forall_cons; [simpl; auto 6 |]). apply Forall_nil.
           ++ simpl. intuition discriminate.
        -- simpl. intuition discriminate.
    + simpl. intuition discriminate.
  - rewrite (process_user_input_rejected world _ _ map_type _ Hrejected).
    simpl. intuition discriminate.
Qed.

End Pipeline.

(** ** The loop of GeoAppCmd.run *)

Section CommandLine.

Variable world : World.

(** Each successful [get_user_input] uses up at least two lines. *)
Lemma get_user_input_shorter (stdin : list string) :
  forall input_address proximity_threshold rest,
    outcome (GeoAppCmd.get_user_input world stdin)
    = Ok (input_address, proximity_threshold, rest) ->
    (List.length rest + 2 <= List.length stdin)%nat.
Proof.
  induction stdin as [stdin IH] using (induction_ltof1 _ (@List.length string)).
  unfold ltof in IH.
  intros input_address proximity_threshold rest.
  destruct stdin as [| a [| text stdin']].
  - discriminate.
  - discriminate.
  - cbn [GeoAppCmd.get_user_input].
    rewrite !outcome_bind. cbn [outcome print emit snd].
    destruct (float_of_string world text) as [value |].
    + cbn. intros E. inversion E. subst. simpl. lia.
    + rewrite outcome_bind. cbn [outcome print emit snd].
      intros E. apply IH in E; simpl in *; lia.
Qed.

(** The bound on the turns is never what stops the loop: any two bounds
    above the number of waiting lines give the same run. *)
Lemma run_loop_enough (turns turns' : nat) (location_data : DataFrame)
      (stdin : list string) :
  (List.length stdin < turns)%nat -> (List.length stdin < turns')%nat ->
  GeoAppCmd.run_loop world turns location_data stdin
  = GeoAppCmd.run_loop world turns' location_data stdin.
Proof.
  revert turns' stdin.
  induction turns as [| turns IH]; intros turns' stdin H H'; [lia |].
  destruct turns' as [| turns']; [lia |].
  cbn [GeoAppCmd.run_loop]. unfold GeoAppCmd.run_body.
  pose proof (get_user_input_shorter stdin) as Hs.
  destruct (GeoAppCmd.get_user_input world stdin) as [t [[[a thr] rest] | e]];
    [| reflexivity].
  specialize (Hs a thr rest eq_refl).
  cbn [bind].
  destruct (GeoAppCmd.address_to_lat_long world _) as [t2 [[l |] | e]];
    try reflexivity.
  cbn [bind]. rewrite (IH turns' rest) by lia. reflexivity.
Qed.

End CommandLine.

(** ** The scenarios, run *)

(** A threshold of "-1": rejected with one dialog. *)
Lemma negative_threshold_rejected :
  let world := Sample.world [Sample.orchard] (Some Sample.downtown) None in
  exists message,
    GeoApp.check_user_input world Sample.query "-1"
    = ([ErrorDialog message], Ok false)
    /\ GeoApp.process_user_input (pandas := stable_pandas) world Sample.query
                                 "-1" "Clusters"
       = ([ErrorDialog message], Ok tt)
    /\ forall service,
         filter (is_geocoder_call service)
                (trace (GeoApp.process_user_input (pandas := stable_pandas)
                          world Sample.query "-1" "Clusters")) = [].
Proof.
  apply (invalid_threshold_rejected_before_geocoding (pandas := stable_pandas)).
  right. exists (Finite (-1)). split; reflexivity.
Defined.

Example threshold_texts_rejected :
  let world := Sample.world [Sample.orchard] (Some Sample.downtown) None in
  map (fun text =>
         GeoApp.process_user_input (pandas := stable_pandas) world Sample.query
                                   text "Clusters")
      ["abc"; "0"; ""]
  = [([ErrorDialog "Proximity threshold must be a valid number."], Ok tt);
     ([ErrorDialog "Proximity threshold must be a positive number."], Ok tt);
     ([ErrorDialog "Please enter a proximity threshold."], Ok tt)].
Proof. reflexivity. Qed.

(** The text "nan" is a number for [float()] and is not [<= 0]: it passes. *)
Example nan_threshold_accepted :
  GeoApp.check_user_input
    (Sample.world [Sample.orchard] (Some Sample.downtown) None)
    Sample.query "nan"
  = ([], Ok true).
Proof. reflexivity. Qed.

(** The primary geocoder answers Johor Bahru, pgeocode does not know the
    postal code: one call of pgeocode, then the dialog. *)
Lemma fallback_once_for_johor :
  let world :=
    Sample.world [Sample.orchard] (Some Sample.johor) (Some Sample.unknown) in
  let events :=
    trace (GeoApp.process_user_input (pandas := stable_pandas) world
             Sample.query "2" "Clusters") in
  List.length (filter (is_geocoder_call Pgeocode) events) = 1%nat
  /\ forall before message after,
       events = before ++ ErrorDialog message :: after ->
       In (GeocoderCalled Pgeocode
             (GeoApp.extract_postal_code world Sample.query)) before.
Proof.
  apply (fallback_attempted_exactly_once (pandas := stable_pandas)
           _ _ _ _ Sample.johor); reflexivity.
Defined.

Example fallback_for_johor_trace :
  GeoApp.process_user_input (pandas := stable_pandas)
    (Sample.world [Sample.orchard] (Some Sample.johor) (Some Sample.unknown))
    Sample.query "2" "Clusters"
  = ([LocationDataLoaded; SpacyModelLoaded;
      GeocoderCalled Nominatim (Some "987123");
      Console (Geocoded Nominatim (Some "987123")
                        (Finite 1.4927) (Finite 103.7414));
      GeocoderCalled Pgeocode (Some "987123");
      Console (Geocoded Pgeocode (Some "987123") NaN NaN);
      ErrorDialog "Unable to retrieve valid coordinates in Singapore"],
     Ok tt).
Proof. reflexivity. Qed.



(** C7 on the code: the primary geocoder answers Johor Bahru and pgeocode
    returns an empty result.  [address_to_lat_long] returns [None], the next
    line reads [user_location.latitude], and the method ends in
    [AttributeError] with no dialog shown. *)
Theorem fallback_without_result_raises_attribute_error :
  let world := Sample.world [Sample.orchard] (Some Sample.johor) None in
  let run :=
    GeoApp.process_user_input (pandas := stable_pandas) world Sample.query "2"
                              "Clusters" in
  outcome (GeoApp.check_user_input world Sample.query "2") = Ok true
  /\ in_sg Sample.johor = false
  /\ outcome (GeoApp.address_to_lat_long world (Some "987123") "pgeocode")
     = Ok None
  /\ run
     = ([LocationDataLoaded; SpacyModelLoaded;
         GeocoderCalled Nominatim (Some "987123");
         Console (Geocoded Nominatim (Some "987123")
                           (Finite 1.4927) (Finite 103.7414));
         GeocoderCalled Pgeocode (Some "987123")],
        Raised (AttributeError "'NoneType' object has no attribute 'latitude'"))
  /\ filter is_error_dialog (trace run) = [].
Proof. repeat split. Qed.

(** C3 on the code: a valid query resolved to [downtown], 2 km, and a table
    whose only record is 28 km away.  The call of [display_map] leaves out
    [map_type] and raises [TypeError]: no map is saved or shown, and the
    dialog that follows the call is never reached. *)
Theorem empty_result_raises_type_error :
  let world := Sample.world [Sample.changi] (Some Sample.downtown) None in
  let run :=
    GeoApp.process_user_input (pandas := stable_pandas) world Sample.query "2"
                              "Clusters" in
  outcome (GeoApp.check_user_input world Sample.query "2") = Ok true
  /\ in_sg Sample.downtown = true
  /\ GeoApp.filter_locations (pandas := stable_pandas) world
       (locations_pkl world) (Finite 1.30) (Finite 103.80) (Finite 2) = []
  /\ run
     = ([LocationDataLoaded; SpacyModelLoaded;
         GeocoderCalled Nominatim (Some "987123");
         Console (Geocoded Nominatim (Some "987123")
                           (Finite 1.30) (Finite 103.80))],
        Raised (TypeError
          "display_map() missing 1 required positional argument: 'map_type'"))
  /\ filter is_map_event (trace run) = []
  /\ filter is_error_dialog (trace run) = [].
Proof. repeat split. Qed.

(** The scenario of the specification: 2 km around [downtown], style
    "Clusters", a table with one record 1.11 km away and one 28 km away. *)
Example clusters_within_two_km :
  let world :=
    Sample.world [Sample.changi; Sample.north] (Some Sample.downtown) None in
  exists distance,
    GeoApp.process_user_input (pandas := stable_pandas) world Sample.query "2"
                              "Clusters"
    = ([LocationDataLoaded; SpacyModelLoaded;
        GeocoderCalled Nominatim (Some "987123");
        Console (Geocoded Nominatim (Some "987123")
                          (Finite 1.30) (Finite 103.80));
        Console (FoundWithin (Finite 2) 1);
        Console (Line
          "-------------------------FILTERED LOCATIONS-------------------------");
        Console (Line "1 North Road");
        Console (Line
          "--------------------------------------------------------------------");
        Console (Line "Generating map...");
        Console (Line "Map generated!");
        MapSaved
          (folium.mk (Finite 1.30, Finite 103.80) 16
             [MarkerCluster [((Finite 1.31, Finite 103.80), "1 North Road")];
              InputMarker (Finite 1.30, Finite 103.80) Sample.query;
              Circle (Finite 1.30, Finite 103.80) (Finite distance);
              MeasureControl])
          "/srv/app/maps/map_123_ABC_Road_Singapore_987123_Clusters.html";
        Console (Line
          "Map saved to /srv/app/maps/map_123_ABC_Road_Singapore_987123_Clusters.html");
        MapShown
          "/srv/app/maps/map_123_ABC_Road_Singapore_987123_Clusters.html"],
       Ok tt).
Proof. eexists. reflexivity. Qed.

(** C8, as the claim has it, fails for [GeoAppCmd.run], which has no test of
    the box: the geocoder answers Johor Bahru, outside the box, and with a
    threshold of 1000 km the map of the filtered records is saved and shown. *)
Lemma cmd_run_renders_outside_bounding_box :
  let world := Sample.world [Sample.orchard] (Some Sample.johor) None in
  let run := GeoAppCmd.run world [Sample.query; "1000"] in
  let m :=
    folium.mk (Finite 1.4927, Finite 103.7414) 13
      [LocationMarkers [Sample.orchard];
       InputMarker (Finite 1.4927, Finite 103.7414) Sample.query;
       Circle (Finite 1.4927, Finite 103.7414) (Finite (1000 * 1000))] in
  outcome run = Ok tt
  /\ In (MapSaved m "/srv/app/map.html") (trace run)
  /\ In (MapShown "/srv/app/map.html") (trace run)
  /\ GeoApp.check_location_in_sg (Finite 1.4927) (Finite 103.7414) = false.
Proof.
  repeat split.
  - simpl. repeat (first [left; reflexivity | right]).
  - simpl. repeat (first [left; reflexivity | right]).
Qed.

(** The map of the scenario above is centred inside the box. *)
Lemma clusters_map_inside_bounding_box :
  GeoApp.check_location_in_sg (Finite 1.30) (Finite 103.80) = true.
Proof.
  apply (proj1 (map_rendered_only_inside_bounding_box
                  (pandas := stable_pandas)
                  (Sample.world [Sample.changi; Sample.north]
                                (Some Sample.downtown) None))
               Sample.query "2" "Clusters"
               (folium.mk (Finite 1.30, Finite 103.80) 16
                  [MarkerCluster [((Finite 1.31, Finite 103.80), "1 North Road")];
                   InputMarker (Finite 1.30, Finite 103.80) Sample.query;
                   Circle (Finite 1.30, Finite 103.80) (Finite (2 * 1000));
                   MeasureControl])
               "/srv/app/maps/map_123_ABC_Road_Singapore_987123_Clusters.html").
  simpl. repeat (first [left; reflexivity | right]).
Defined.

(** * Further properties of the two programs *)

(** ** Further properties: validation and extraction *)

Lemma first_postal_code_first_match (ent_list : list (string * string)) :
  match GeoApp.first_postal_code ent_list with
  | Some code =>
      exists before after,
        ent_list = before ++ (code, "POSTAL_CODE") :: after
        /\ Forall (fun ent => snd ent <> "POSTAL_CODE") before
  | None => Forall (fun ent => snd ent <> "POSTAL_CODE") ent_list
  end.
Proof.
  induction ent_list as [| [ent_text ent_label] rest IH]; simpl.
  - constructor.
  - destruct (ent_label =? "POSTAL_CODE")%string eqn:E.
    + apply String.eqb_eq in E. subst ent_label.
      exists [], rest. split; [reflexivity | constructor].
    + apply String.eqb_neq in E.
      destruct (GeoApp.first_postal_code rest) as [code |].
      * destruct IH as [before [after [Hsplit Hbefore]]].
        exists ((ent_text, ent_label) :: before), after. split.
        -- simpl. now rewrite Hsplit.
        -- constructor; trivial.
      * constructor; trivial.
Qed.

(** X1: [extract_postal_code] returns the text of the first entity that the
    model labels POSTAL_CODE, and [None] exactly when no entity has that
    label. *)
Theorem extract_postal_code_first_match (world : World) (input_address : string) :
  match GeoApp.extract_postal_code world input_address with
  | Some code =>
      exists before after,
        nlp world input_address = before ++ (code, "POSTAL_CODE") :: after
        /\ Forall (fun ent => snd ent <> "POSTAL_CODE") before
  | None =>
      Forall (fun ent => snd ent <> "POSTAL_CODE") (nlp world input_address)
  end.
Proof. apply first_postal_code_first_match. Qed.

Lemma not_fleb_zero (value : float) :
  (value <=? float_of_Z 0)%float = false
  <-> value = NaN \/ (float_of_Z 0 <? value)%float = true.
Proof.
  destruct value as [| | q |]; simpl; split; intros H; auto;
    try discriminate; try (destruct H; discriminate).
  - right. now rewrite H.
  - destruct H as [H | H]; [discriminate |]. now apply negb_true_iff in H.
Qed.

(** X2: [check_user_input] never raises.  It accepts exactly when the address
    and the proximity text are not empty and [float()] gives a value that is
    positive or NaN; it then shows no dialog, and otherwise exactly one. *)
Theorem check_user_input_accepts_iff (world : World) (input_address text : string) :
  exists dialogs accepted,
    GeoApp.check_user_input world input_address text = (dialogs, Ok accepted)
    /\ (accepted = true <->
        input_address <> "" /\ text <> ""
        /\ exists value, float_of_string world text = Some value
                         /\ (value = NaN
                             \/ (float_of_Z 0 <? value)%float = true))
    /\ (accepted = true -> dialogs = [])
    /\ (accepted = false -> exists message, dialogs = [ErrorDialog message]).
Proof.
  unfold GeoApp.check_user_input.
  destruct (input_address =? "")%string eqn:Ea.
  { apply String.eqb_eq in Ea. eexists; exists false. repeat split; try discriminate.
    - intros [H _]. contradiction.
    - intros _. eexists. reflexivity. }
  destruct (text =? "")%string eqn:Et.
  { apply String.eqb_eq in Et. eexists; exists false. repeat split; try discriminate.
    - intros [_ [H _]]. contradiction.
    - intros _. eexists. reflexivity. }
  apply String.eqb_neq in Ea, Et.
  destruct (float_of_string world text) as [value |].
  - destruct (value <=? float_of_Z 0)%float eqn:E.
    + eexists; exists false. repeat split; try discriminate.
      * intros [_ [_ [v [Hv Hpos]]]]. inversion Hv; subst v.
        apply not_fleb_zero in Hpos. congruence.
      * intros _. eexists. reflexivity.
    + exists [], true. repeat split; trivial; try discriminate.
      exists value. split; trivial. now apply not_fleb_zero.
  - eexists; exists false. repeat split; try discriminate.
    + intros [_ [_ [v [Hv _]]]]. discriminate.
    + intros _. eexists. reflexivity.
Qed.


(** [df.drop(columns='proximity')], row by row. *)
Definition drop_proximity (row : Row.t) : Row.t :=
  Row.mk (Row.address row) (Row.postal_code row)
         (Row.latitude row) (Row.longitude row) None.

Lemma filter_length_le {A : Type} (f g : A -> bool) (l : list A) :
  (forall x, f x = true -> g x = true) ->
  (List.length (filter f l) <= List.length (filter g l))%nat.
Proof.
  intros H. induction l as [| x l IH]; simpl; trivial.
  destruct (f x) eqn:E.
  - rewrite (H x E). simpl. lia.
  - destruct (g x); simpl; lia.
Qed.

Lemma filter_filter_narrow {A : Type} (f g : A -> bool) (l : list A) :
  (forall x, f x = true -> g x = true) ->
  filter f (filter g l) = filter f l.
Proof.
  intros H. induction l as [| x l IH]; simpl; trivial.
  destruct (g x) eqn:G; simpl.
  - now rewrite IH.
  - destruct (f x) eqn:F; trivial.
    rewrite (H x F) in G. discriminate.
Qed.

Section MoreFilter.

Context {pandas : SortValues}.
Variable world : World.
Variables user_latitude user_longitude : float.

Lemma filter_locations_In_exactly (location_data : DataFrame)
        (proximity_threshold : float) (row : Row.t) :
  In row (GeoApp.filter_locations world location_data user_latitude
                                  user_longitude proximity_threshold)
  <-> exists source,
        In source location_data
        /\ (dist world user_latitude user_longitude source
            <=? proximity_threshold)%float = true
        /\ row = GeoApp.set_proximity
                   (dist world user_latitude user_longitude source) source.
Proof.
  split.
  - apply filter_locations_In.
  - intros [source [Hin [Hw ->]]].
    apply (Permutation_in _ (Permutation_sym
             (filter_locations_Permutation world user_latitude user_longitude
                                           proximity_threshold location_data))).
    apply (in_map (annotate world user_latitude user_longitude)).
    apply filter_In. split; trivial.
Qed.

(** X3: a record is returned by [GeoApp.filter_locations] exactly when it is a
    record of the table within the threshold, with [proximity] set to its
    distance and its other columns untouched. *)
Theorem filter_locations_In_iff (location_data : DataFrame)
        (proximity_threshold : float) (row : Row.t) :
  In row (GeoApp.filter_locations world location_data user_latitude
                                  user_longitude proximity_threshold)
  <-> exists source,
        In source location_data
        /\ (dist world user_latitude user_longitude source
            <=? proximity_threshold)%float = true
        /\ row = GeoApp.set_proximity
                   (dist world user_latitude user_longitude source) source.
Proof. exact (filter_locations_In_exactly location_data proximity_threshold row). Qed.

Lemma filter_locations_nan (location_data : DataFrame) :
  GeoApp.filter_locations world location_data user_latitude user_longitude NaN
  = []
  /\ GeoAppCmd.filter_locations world location_data user_latitude
                                user_longitude NaN = []
  /\ forall proximity_threshold row,
       In row (GeoApp.filter_locations world location_data user_latitude
                 user_longitude proximity_threshold)
       \/ In row (GeoAppCmd.filter_locations world location_data user_latitude
                    user_longitude proximity_threshold) ->
       dist world user_latitude user_longitude row <> NaN.
Proof.
  assert (Hnone : forall l : DataFrame,
             filter (fun row =>
                       (geodesic_km world (user_latitude, user_longitude)
                                    (point row) <=? NaN)%float) l = []).
  { induction l as [| x l IH]; simpl; trivial.
    destruct (geodesic_km world _ _); simpl; exact IH. }
  repeat split.
  - unfold GeoApp.filter_locations, GeoApp.distance_to. now rewrite Hnone.
  - apply Hnone.
  - intros proximity_threshold row [H | H].
    + apply filter_locations_In in H. destruct H as [source [_ [Hw ->]]].
      rewrite dist_annotate. exact (fleb_not_nan_l _ _ Hw).
    + apply filter_In in H. destruct H as [_ Hw].
      exact (fleb_not_nan_l _ _ Hw).
Qed.


(** X5: filtering with [GeoAppCmd.filter_locations] what an earlier call kept
    under a threshold at least as large gives what filtering the table
    itself gives. *)
Theorem cmd_filter_locations_narrowing (location_data : DataFrame)
        (inner outer : float) :
  (inner <=? outer)%float = true ->
  GeoAppCmd.filter_locations world
    (GeoAppCmd.filter_locations world location_data user_latitude
                                user_longitude outer)
    user_latitude user_longitude inner
  = GeoAppCmd.filter_locations world location_data user_latitude
                               user_longitude inner.
Proof.
  intros H. unfold GeoAppCmd.filter_locations.
  apply filter_filter_narrow. intros row Hrow.
  exact (fleb_trans _ _ _ Hrow H).
Qed.

(** X6: raising the threshold only adds records to the result of
    [GeoApp.filter_locations]. *)
Theorem filter_locations_grows_with_threshold (location_data : DataFrame)
        (smaller larger : float) :
  (smaller <=? larger)%float = true ->
  incl (GeoApp.filter_locations world location_data user_latitude
                                user_longitude smaller)
       (GeoApp.filter_locations world location_data user_latitude
                                user_longitude larger)
  /\ (List.length (GeoApp.filter_locations world location_data user_latitude
                                           user_longitude smaller)
      <= List.length (GeoApp.filter_locations world location_data
                        user_latitude user_longitude larger))%nat.
Proof.
  intros H. split.
  - intros row Hrow. apply filter_locations_In_exactly in Hrow.
    destruct Hrow as [source [Hin [Hw ->]]].
    apply filter_locations_In_exactly. exists source. repeat split; trivial.
    exact (fleb_trans _ _ _ Hw H).
  - rewrite !(Permutation_length (filter_locations_Permutation _ _ _ _ _)).
    rewrite !length_map. apply filter_length_le.
    intros row Hrow. exact (fleb_trans _ _ _ Hrow H).
Qed.

(** X7: up to the order of the rows and the [proximity] column, the two
    [filter_locations] return the same records. *)
Theorem filter_locations_variants_agree (location_data : DataFrame)
        (proximity_threshold : float) :
  Permutation
    (map drop_proximity
         (GeoApp.filter_locations world location_data user_latitude
                                  user_longitude proximity_threshold))
    (map drop_proximity
         (GeoAppCmd.filter_locations world location_data user_latitude
                                     user_longitude proximity_threshold)).
Proof.
  rewrite (filter_locations_Permutation world user_latitude user_longitude
             proximity_threshold location_data).
  rewrite map_map. reflexivity.
Qed.

End MoreFilter.


(** [' ' in text] *)
Fixpoint contains_space (text : string) : bool :=
  match text with
  | EmptyString => false
  | String c rest => Ascii.eqb c " "%char || contains_space rest
  end.

(** The layers that show records, as against the marker of the query, the
    circle and the scale control. *)
Definition is_location_layer (child : map_element) : bool :=
  match child with
  | HeatMap _ | MarkerCluster _ | LocationMarkers _ | PolyLine _ _ => true
  | InputMarker _ _ | Circle _ _ | MeasureControl => false
  end.

Definition is_map_saved (e : event) : bool :=
  match e with MapSaved _ _ => true | _ => false end.

(** *** Names of the map files *)

Lemma contains_space_app (a b : string) :
  contains_space (a ++ b) = contains_space a || contains_space b.
Proof.
  induction a as [| c a IH]; simpl; trivial.
  now rewrite IH, orb_assoc.
Qed.

Lemma replace_spaces_no_space (text : string) :
  contains_space (replace_spaces text) = false.
Proof.
  induction text as [| c text IH]; simpl; trivial.
  rewrite IH, orb_false_r.
  destruct (Ascii.eqb c " ") eqn:E; trivial.
Qed.

Lemma replace_spaces_length (text : string) :
  String.length (replace_spaces text) = String.length text.
Proof.
  induction text as [| c text IH]; simpl; congruence.
Qed.

(** *** The nearest records *)

Definition min_step (least v : float) : float :=
  if is_nan v then least
  else if is_nan least then v
  else if (v <? least)%float then v else least.

Lemma column_min_fold (values : list float) :
  column_min values = fold_left min_step values NaN.
Proof. reflexivity. Qed.

Lemma fltb_fleb (x y : float) : (x <? y)%float = true -> (x <=? y)%float = true.
Proof.
  destruct x, y; simpl; try discriminate; trivial.
  intros H. apply negb_true_iff, Qle_bool_false in H.
  apply Qle_bool_iff. lra.
Qed.

Lemma not_fltb_fleb (x y : float) :
  x <> NaN -> y <> NaN -> (x <? y)%float = false -> (y <=? x)%float = true.
Proof.
  destruct x, y; simpl; try congruence; trivial.
  intros _ _ H. now apply negb_false_iff in H.
Qed.

Lemma fleb_refl (x : float) : x <> NaN -> (x <=? x)%float = true.
Proof.
  destruct x; simpl; try congruence; trivial.
  intros _. apply Qle_bool_iff. lra.
Qed.

Lemma feqb_refl (x : float) : x <> NaN -> (x =? x)%float = true.
Proof.
  destruct x; simpl; try congruence; trivial.
  intros _. apply Qeq_bool_iff. reflexivity.
Qed.

Lemma feqb_fleb (x y : float) : (x =? y)%float = true -> (x <=? y)%float = true.
Proof.
  destruct x, y; simpl; try discriminate; trivial.
  intros H. apply Qeq_bool_iff in H. apply Qle_bool_iff. lra.
Qed.

Lemma fold_min_step (values : list float) (least : float) :
  Forall (fun v => v <> NaN) values -> least <> NaN ->
  let result := fold_left min_step values least in
  In result (least :: values)
  /\ Forall (fun v => (result <=? v)%float = true) (least :: values).
Proof.
  revert least. induction values as [| v values IH]; intros least Hvalues Hleast.
  - simpl. split; [auto |]. constructor; [now apply fleb_refl | constructor].
  - inversion Hvalues as [| ? ? Hv Hrest]; subst.
    cbn [fold_left]. cbv zeta.
    assert (Hstep : min_step least v <> NaN
                    /\ In (min_step least v) [least; v]
                    /\ (min_step least v <=? least)%float = true
                    /\ (min_step least v <=? v)%float = true).
    { unfold min_step.
      destruct (is_nan v) eqn:Ev; [destruct v; simpl in Ev; congruence |].
      destruct (is_nan least) eqn:El; [destruct least; simpl in El; congruence |].
      destruct (v <? least)%float eqn:E.
      - repeat split; simpl; auto using fltb_fleb, fleb_refl.
      - repeat split; simpl; auto using not_fltb_fleb, fleb_refl. }
    destruct Hstep as [Hn [Hin [Hl Hlv]]].
    destruct (IH (min_step least v) Hrest Hn) as [IHin IHall]. cbv zeta in *.
    split.
    + destruct IHin as [E | E].
      * rewrite <- E. simpl in Hin. simpl. tauto.
      * simpl. auto.
    + inversion IHall as [| ? ? Hm Hothers]; subst.
      constructor; [exact (fleb_trans _ _ _ Hm Hl) |].
      constructor; [exact (fleb_trans _ _ _ Hm Hlv) | exact Hothers].
Qed.

Lemma column_min_least (values : list float) :
  values <> [] -> Forall (fun v => v <> NaN) values ->
  In (column_min values) values
  /\ Forall (fun v => (column_min values <=? v)%float = true) values.
Proof.
  destruct values as [| v values]; [congruence |].
  intros _ Hvalues. inversion Hvalues as [| ? ? Hv Hrest]; subst.
  rewrite column_min_fold. cbn [fold_left].
  assert (E : min_step NaN v = v).
  { unfold min_step. destruct v; simpl; congruence. }
  rewrite E. exact (fold_min_step values v Hrest Hv).
Qed.

Lemma fold_add_polylines_eq (source : coordinate) (targets : DataFrame)
      (m : folium.Map) :
  fold_left (fun m location => add_child m (PolyLine source (point location)))
            targets m
  = folium.mk (folium.location m) (folium.zoom_start m)
      (folium.children m
         ++ map (fun row => PolyLine source (point row)) targets).
Proof.
  revert m. induction targets as [| t targets IH]; intros m; simpl.
  - rewrite app_nil_r. now destruct m.
  - rewrite IH. simpl. now rewrite <- app_assoc.
Qed.

Lemma fold_add_polylines (source : coordinate) (targets : DataFrame)
      (m : folium.Map) :
  folium.children
    (fold_left (fun m location => add_child m (PolyLine source (point location)))
               targets m)
  = folium.children m ++ map (fun row => PolyLine source (point row)) targets.
Proof. now rewrite fold_add_polylines_eq. Qed.

Section Maps.

Context {pandas : SortValues}.
Variable world : World.

(** X9: on a result of [filter_locations] that is not empty,
    [add_polyline_to_map] appends at least one line and nothing else, each
    line from the query coordinate to a returned record that no returned
    record is nearer than. *)
Theorem add_polyline_to_map_nearest
        (location_data : DataFrame) (lat lng thr : float) (m : folium.Map) :
  let df := GeoApp.filter_locations world location_data lat lng thr in
  df <> [] ->
  exists nearest,
    folium.children (GeoApp.add_polyline_to_map m (Some df) lat lng)
    = folium.children m
        ++ map (fun row => PolyLine (lat, lng) (point row)) nearest
    /\ nearest <> []
    /\ Forall (fun target =>
                 In target df
                 /\ Forall (fun row => (dist world lat lng target
                                        <=? dist world lat lng row)%float
                                       = true) df) nearest.
Proof.
  cbv zeta. intros Hne.
  pose proof (filter_locations_rows world lat lng thr location_data) as Hrows.
  set (df := GeoApp.filter_locations world location_data lat lng thr) in *.
  assert (Hnum : Forall (fun v => v <> NaN) (map proximity_of df)).
  { apply Forall_map. eapply Forall_impl; [| exact Hrows].
    intros row [Hw Hp]. rewrite Hp. exact (fleb_not_nan_l _ _ Hw). }
  assert (Hne' : map proximity_of df <> []).
  { destruct df; simpl; congruence. }
  destruct (column_min_least _ Hne' Hnum) as [Hin Hleast].
  unfold GeoApp.add_polyline_to_map.
  destruct (empty df) eqn:Ee; [destruct df; [congruence | discriminate] |].
  cbn [negb]. cbv zeta.
  set (least := column_min (map proximity_of df)) in *.
  exists (filter (fun row => (proximity_of row =? least)%float) df).
  split; [apply fold_add_polylines |]. split.
  - apply in_map_iff in Hin. destruct Hin as [row [Hrow Hin]].
    intros Hnil.
    assert (H : In row (filter (fun row => (proximity_of row =? least)%float) df)).
    { apply filter_In. split; trivial. rewrite Hrow.
      apply feqb_refl. rewrite Forall_forall in Hnum. apply Hnum.
      rewrite <- Hrow. now apply in_map. }
    rewrite Hnil in H. contradiction.
  - apply Forall_forall. intros target Ht. apply filter_In in Ht.
    destruct Ht as [Ht Heq]. split; trivial.
    apply Forall_forall. intros row Hrow.
    rewrite Forall_forall in Hrows.
    destruct (Hrows target Ht) as [_ Et]. destruct (Hrows row Hrow) as [_ Er].
    unfold dist in *. rewrite <- Et, <- Er.
    apply feqb_fleb in Heq.
    apply (fleb_trans _ _ _ Heq).
    rewrite Forall_forall in Hleast. apply Hleast. now apply in_map.
Qed.

(** X8: whenever the zoom level is defined, the map of [create_folium_map] is
    centred on the query coordinate and ends with the marker of the query,
    the circle of radius 1000 times the threshold and the scale control;
    before them come only layers of records, and none at all when there is
    no frame or the style is not one of the three. *)
Theorem create_folium_map_children
        (df : option DataFrame) (input_address map_type : string)
        (latitude longitude proximity_threshold : float) (zoom : Z) :
  GeoApp.get_zoom_level proximity_threshold = Ok zoom ->
  exists layers,
    GeoApp.create_folium_map df input_address latitude longitude
                             proximity_threshold map_type
    = ([], Ok (folium.mk (latitude, longitude) zoom
                 (layers
                    ++ [InputMarker (latitude, longitude) input_address;
                        Circle (latitude, longitude)
                               (fmul_pos proximity_threshold 1000);
                        MeasureControl])))
    /\ Forall (fun child => is_location_layer child = true) layers
    /\ (df = None
        \/ (map_type <> "Heat Density" /\ map_type <> "Clusters"
            /\ map_type <> "Proximity")
        -> layers = []).
Proof.
  intros Hzoom. unfold GeoApp.create_folium_map. rewrite Hzoom.
  cbn [lift bind ret app].
  unfold GeoApp.add_proximity_circle_to_map, GeoApp.add_input_marker_to_map.
  destruct df as [rows |].
  - destruct (map_type =? "Heat Density")%string eqn:E1.
    { eexists [_]. split; [reflexivity |]. split; [repeat constructor |].
      apply String.eqb_eq in E1. intros [H | [H _]]; congruence. }
    destruct (map_type =? "Clusters")%string eqn:E2.
    { eexists [_]. split; [reflexivity |]. split; [repeat constructor |].
      apply String.eqb_eq in E2. intros [H | [_ [H _]]]; congruence. }
    destruct (map_type =? "Proximity")%string eqn:E3.
    + unfold GeoApp.add_polyline_to_map, GeoApp.add_markers_to_map.
      destruct (negb (empty rows)).
      * cbv zeta.
        set (nearest := filter _ rows).
        exists (LocationMarkers rows
                  :: map (fun row => PolyLine (latitude, longitude) (point row))
                         nearest).
        split; [| split].
        -- rewrite fold_add_polylines_eq. unfold add_child. simpl.
           now rewrite <- !app_assoc.
        -- constructor; trivial. apply Forall_map.
           apply Forall_forall. reflexivity.
        -- apply String.eqb_eq in E3. intros [H | [_ [_ H]]]; congruence.
      * eexists [_]. split; [reflexivity |]. split; [repeat constructor |].
        apply String.eqb_eq in E3. intros [H | [_ [_ H]]]; congruence.
    + exists []. split; [reflexivity |]. split; [constructor | trivial].
  - exists []. split; [reflexivity |]. split; [constructor | trivial].
Qed.

End Maps.

Section Display.

Variable world : World.

Lemma display_map_result
        (df : option DataFrame) (input_address map_type : string)
        (latitude longitude proximity_threshold : float) :
  let run :=
    GeoApp.display_map world df input_address latitude longitude
                       proximity_threshold map_type in
  if is_nan proximity_threshold then
    run = ([Console (Line "Generating map...")],
           Raised (ValueError "cannot convert float NaN to integer"))
  else
    exists m filename,
      let map_filepath := path_join3 (current_dir world) "maps" filename in
      run = ([Console (Line "Generating map...");
              Console (Line "Map generated!");
              MapSaved m map_filepath;
              Console (Line ("Map saved to " ++ map_filepath));
              MapShown map_filepath],
             Ok tt)
      /\ folium.location m = (latitude, longitude)
      /\ contains_space filename = false.
Proof.
  cbv zeta. unfold GeoApp.display_map.
  pose proof (create_folium_map_result df input_address latitude longitude
                proximity_threshold map_type) as H.
  destruct (GeoApp.get_zoom_level proximity_threshold) as [zoom | e] eqn:Hz.
  - destruct proximity_threshold; [discriminate Hz | | |]; cbn [is_nan];
      destruct H as [m [E L]]; rewrite E;
      exists m; eexists; (split; [reflexivity |]); (split; trivial);
      rewrite !contains_space_app, !replace_spaces_no_space; reflexivity.
  - destruct proximity_threshold as [| | q |]; cbn [is_nan].
    + inversion Hz; subst e. rewrite H. reflexivity.
    + discriminate Hz.
    + rewrite get_zoom_level_finite in Hz. discriminate Hz.
    + discriminate Hz.
Qed.


Lemma print_lines_trace (lines : list string) :
  fold_right (fun address rest => print address ;; rest) (ret tt) lines
  = (map (fun line => Console (Line line)) lines, Ok tt).
Proof.
  induction lines as [| line lines IH]; cbn [fold_right map]; trivial.
  now rewrite IH.
Qed.

Lemma print_addresses_trace (df : DataFrame) (proximity_threshold : float) :
  let expected :=
    ([Console (FoundWithin proximity_threshold (List.length df));
      Console (Line
        "-------------------------FILTERED LOCATIONS-------------------------")]
       ++ map (fun row => Console (Line (Row.address row))) df
       ++ [Console (Line
        "--------------------------------------------------------------------")],
     Ok tt) in
  GeoApp.print_addresses df proximity_threshold = expected
  /\ GeoAppCmd.print_addresses df proximity_threshold = expected.
Proof.
  cbv zeta. unfold GeoApp.print_addresses, GeoAppCmd.print_addresses.
  rewrite print_lines_trace, length_map, map_map. split; reflexivity.
Qed.

(** Both [print_addresses] print the count of the rows, then one line for
    each row's address, in the order of the frame, between the two rules. *)
Theorem print_addresses_lines (df : DataFrame) (proximity_threshold : float) :
  let expected :=
    ([Console (FoundWithin proximity_threshold (List.length df));
      Console (Line
        "-------------------------FILTERED LOCATIONS-------------------------")]
       ++ map (fun row => Console (Line (Row.address row))) df
       ++ [Console (Line
        "--------------------------------------------------------------------")],
     Ok tt) in
  GeoApp.print_addresses df proximity_threshold = expected
  /\ GeoAppCmd.print_addresses df proximity_threshold = expected.
Proof. exact (print_addresses_trace df proximity_threshold). Qed.

End Display.


Definition count (p : event -> bool) (events : list event) : nat :=
  List.length (filter p events).

Lemma count_app (p : event -> bool) (a b : list event) :
  count p (a ++ b) = (count p a + count p b)%nat.
Proof. unfold count. now rewrite filter_app, length_app. Qed.

Lemma count_none (p : event -> bool) (events : list event) :
  Forall (fun e => p e = false) events -> count p events = 0%nat.
Proof.
  unfold count. induction 1 as [| e events He _ IH]; simpl; trivial.
  now rewrite He.
Qed.

Definition drawing (map_filepath : string) (m : folium.Map) : list event :=
  [Console (Line "Generating map...");
   Console (Line "Map generated!");
   MapSaved m map_filepath;
   Console (Line ("Map saved to " ++ map_filepath));
   MapShown map_filepath].

Section MoreProcess.

Context {pandas : SortValues}.
Variable world : World.

Lemma render_nonempty (location_data : DataFrame) (input_address : string)
      (lat lng value : float) (map_type : string) :
  GeoApp.filter_locations world location_data lat lng value <> [] ->
  exists printed m map_filepath,
    render world location_data input_address lat lng value map_type
    = (printed ++ drawing map_filepath m, Ok tt)
    /\ folium.location m = (lat, lng)
    /\ Forall (fun e => is_console e = true) printed.
Proof.
  intros Hne.
  destruct (nonempty_result_zoom_level world location_data lat lng value Hne)
    as [zoom [Hzoom _]].
  assert (Hnan : is_nan value = false) by (destruct value; trivial; discriminate).
  unfold render.
  destruct (GeoApp.filter_locations world location_data lat lng value)
    as [| row rows] eqn:E; [congruence |].
  cbn [empty negb GeoApp.call_display_map].
  pose proof (display_map_result world (@Some DataFrame (row :: rows))
                input_address map_type lat lng value) as Hd.
  cbv zeta in Hd. rewrite Hnan in Hd. destruct Hd as [m [filename [Hd [Hl _]]]].
  destruct (print_addresses_trace (row :: rows) value) as [Hp _].
  cbv zeta in Hp. rewrite Hp. cbn [bind]. rewrite Hd.
  eexists. exists m. eexists. split; [reflexivity |]. split; trivial.
  repeat (apply Forall_cons; [reflexivity |]).
  apply Forall_app. split.
  - apply Forall_map. apply Forall_forall. reflexivity.
  - repeat constructor.
Qed.





Lemma render_outcome (location_data : DataFrame) (input_address : string)
      (lat lng value : float) (map_type : string) :
  let run := render world location_data input_address lat lng value map_type in
  (outcome run = Ok tt
   \/ outcome run
      = Raised (TypeError
          "display_map() missing 1 required positional argument: 'map_type'"))
  /\ count is_error_dialog (trace run) = 0%nat
  /\ (forall service, count (is_geocoder_call service) (trace run) = 0%nat)
  /\ (count is_map_saved (trace run) <= 1)%nat.
Proof.
  cbv zeta.
  pose proof (render_events world location_data input_address lat lng value
                map_type) as Hev.
  split; [| split; [| split]].
  - destruct (GeoApp.filter_locations world location_data lat lng value)
      as [| row rows] eqn:E.
    + right. rewrite render_empty by (now rewrite E). reflexivity.
    + left.
      destruct (render_nonempty location_data input_address lat lng value
                  map_type) as [printed [m [p [Hr _]]]]; [congruence |].
      now rewrite Hr.
  - apply count_none. eapply map_at_no_dialog, Hev.
  - intros service. unfold count. now rewrite (map_at_no_call _ _ _ _ Hev).
  - destruct (GeoApp.filter_locations world location_data lat lng value)
      as [| row rows] eqn:E.
    + rewrite render_empty by (now rewrite E). cbn. lia.
    + destruct (render_nonempty location_data input_address lat lng value
                  map_type) as [printed [m [p [Hr [_ Hc]]]]]; [congruence |].
      rewrite Hr. cbn [trace fst]. rewrite count_app.
      rewrite (count_none is_map_saved printed).
      * cbn. lia.
      * eapply Forall_impl; [| exact Hc]. intros [] H; try discriminate H.
        reflexivity.
Qed.

(** X13: whatever is submitted, [process_user_input] shows at most one dialog,
    calls each geocoder at most once and saves at most one map, and never
    both shows a dialog and saves a map. *)
Theorem process_user_input_at_most_once
        (input_address text map_type : string) :
  let events :=
    trace (GeoApp.process_user_input world input_address text map_type) in
  (count is_error_dialog events <= 1)%nat
  /\ (count (is_geocoder_call Nominatim) events <= 1)%nat
  /\ (count (is_geocoder_call Pgeocode) events <= 1)%nat
  /\ (count is_map_saved events <= 1)%nat
  /\ (count is_error_dialog events + count is_map_saved events <= 1)%nat.
Proof.
  cbv zeta.
  assert (Hr : forall lat lng value pre,
             count is_error_dialog pre = 0%nat ->
             (count (is_geocoder_call Nominatim) pre <= 1)%nat ->
             (count (is_geocoder_call Pgeocode) pre <= 1)%nat ->
             count is_map_saved pre = 0%nat ->
             let events :=
               trace ((pre, Ok tt) ;;
                      render world (locations_pkl world) input_address lat lng
                             value map_type) in
             (count is_error_dialog events <= 1)%nat
             /\ (count (is_geocoder_call Nominatim) events <= 1)%nat
             /\ (count (is_geocoder_call Pgeocode) events <= 1)%nat
             /\ (count is_map_saved events <= 1)%nat
             /\ (count is_error_dialog events + count is_map_saved events
                 <= 1)%nat).
  { intros lat lng value pre H1 H2 H3 H4. cbv zeta.
    rewrite trace_bind. cbn [outcome trace fst snd].
    destruct (render_outcome (locations_pkl world) input_address lat lng value
                map_type) as [_ [R1 [R2 R3]]].
    rewrite !count_app, R1, !R2, H1, H4. lia. }
  destruct (check_user_input_cases world input_address text)
    as [[Hcheck [value [Hfloat _]]] | [message Hrejected]].
  - rewrite (process_user_input_valid world _ _ _ _ Hcheck Hfloat).
    cbv zeta.
    destruct (nominatim_geocode world _) as [l |].
    + destruct (in_sg l).
      * apply Hr; cbn; lia.
      * destruct (pgeocode_query world _) as [l2 |].
        -- destruct (in_sg l2).
           ++ apply Hr; cbn; lia.
           ++ cbn. lia.
        -- cbn. lia.
    + cbn. lia.
  - rewrite (process_user_input_rejected world _ _ map_type _ Hrejected).
    cbn. lia.
Qed.


(** X15: a proximity text that [float()] reads as NaN passes
    [check_user_input]; once the address is resolved inside the box the
    submission ends in the [TypeError] of the empty branch, with no map and
    no dialog. *)
Theorem nan_threshold_accepted_then_raises
        (input_address text map_type : string) (l : Location.t) :
  input_address <> "" ->
  float_of_string world text = Some NaN ->
  text <> "" ->
  nominatim_geocode world (GeoApp.extract_postal_code world input_address)
  = Some l ->
  in_sg l = true ->
  let run := GeoApp.process_user_input world input_address text map_type in
  outcome (GeoApp.check_user_input world input_address text) = Ok true
  /\ outcome run
     = Raised (TypeError
         "display_map() missing 1 required positional argument: 'map_type'")
  /\ count is_map_saved (trace run) = 0%nat
  /\ count is_error_dialog (trace run) = 0%nat.
Proof.
  intros Ha Hfloat Ht Hgeo Hin. cbv zeta.
  assert (Hvalid : outcome (GeoApp.check_user_input world input_address text)
                   = Ok true).
  { unfold GeoApp.check_user_input.
    apply String.eqb_neq in Ha, Ht. rewrite Ha, Ht, Hfloat. reflexivity. }
  split; [exact Hvalid |].
  apply check_user_input_true in Hvalid. destruct Hvalid as [Hcheck _].
  rewrite (process_user_input_valid world _ _ _ _ Hcheck Hfloat).
  cbv zeta. rewrite Hgeo, Hin.
  rewrite render_empty.
  - repeat split.
  - destruct (filter_locations_nan world (Location.latitude l)
                (Location.longitude l) (locations_pkl world)) as [E _].
    now rewrite E.
Qed.

End MoreProcess.


(** *** The zoom level of the command-line variant *)











(** *** Reading the console *)

(** Lines that [get_user_input] reads and throws away: pairs of an address
    and a text that [float()] refuses. *)
Fixpoint rejected_pairs (world : World) (lines : list string) : Prop :=
  match lines with
  | [] => True
  | _ :: rest =>
      match rest with
      | [] => False
      | text :: rest' =>
          float_of_string world text = None /\ rejected_pairs world rest'
      end
  end.

Section MoreCommandLine.

Variable world : World.

Lemma get_user_input_cases (stdin : list string) :
  match outcome (GeoAppCmd.get_user_input world stdin) with
  | Ok (input_address, proximity_threshold, rest) =>
      exists skipped text,
        stdin = skipped ++ input_address :: text :: rest
        /\ rejected_pairs world skipped
        /\ float_of_string world text = Some proximity_threshold
  | Raised e =>
      e = EOFError
      /\ exists skipped left,
           stdin = skipped ++ left
           /\ rejected_pairs world skipped
           /\ (List.length left <= 1)%nat
  end.
Proof.
  induction stdin as [stdin IH] using (induction_ltof1 _ (@List.length string)).
  unfold ltof in IH.
  destruct stdin as [| a [| text stdin']].
  - cbn. split; trivial. exists [], []. cbn. auto.
  - cbn. split; trivial. exists [], [a]. cbn. auto.
  - cbn [GeoAppCmd.get_user_input].
    rewrite !outcome_bind. cbn [outcome print emit snd].
    destruct (float_of_string world text) as [value |] eqn:E.
    + cbn. exists [], text. cbn. auto.
    + rewrite outcome_bind. cbn [outcome print emit snd].
      assert (Hlt : (List.length stdin' < List.length (a :: text :: stdin'))%nat)
        by (simpl; lia).
      specialize (IH stdin' Hlt).
      destruct (outcome (GeoAppCmd.get_user_input world stdin'))
        as [[[address threshold] rest] | e].
      * destruct IH as [skipped [text' [Hs [Hr Hf]]]].
        exists (a :: text :: skipped), text'. rewrite Hs. cbn. auto.
      * destruct IH as [He [skipped [left [Hs [Hr Hl]]]]]. split; trivial.
        exists (a :: text :: skipped), left. rewrite Hs. cbn. auto.
Qed.

(** X17: [get_user_input] returns the first address whose next line [float()]
    accepts, with that value (of any sign) and the lines after it;
    everything before was pairs with a refused second line.  It raises only
    [EOFError], when the lines run out first. *)
Theorem get_user_input_result (stdin : list string) :
  match outcome (GeoAppCmd.get_user_input world stdin) with
  | Ok (input_address, proximity_threshold, rest) =>
      exists skipped text,
        stdin = skipped ++ input_address :: text :: rest
        /\ rejected_pairs world skipped
        /\ float_of_string world text = Some proximity_threshold
  | Raised e =>
      e = EOFError
      /\ exists skipped left,
           stdin = skipped ++ left
           /\ rejected_pairs world skipped
           /\ (List.length left <= 1)%nat
  end.
Proof. exact (get_user_input_cases stdin). Qed.


End MoreCommandLine.


Section RunFacts.

Variable world : World.









End RunFacts.


Section Asked.

Context {pandas : SortValues}.
Variable world : World.

(** X20: whichever geocoder [process_user_input] calls, it asks it for what
    [extract_postal_code] returned (which may be [None]), never for the
    address as typed. *)
Theorem geocoders_asked_for_postal_code
        (input_address text map_type : string) (service : geocoder)
        (address : option string) :
  In (GeocoderCalled service address)
     (trace (GeoApp.process_user_input world input_address text map_type)) ->
  address = GeoApp.extract_postal_code world input_address.
Proof.
  assert (Hr : forall lat lng value pre,
             (In (GeocoderCalled service address) pre ->
              address = GeoApp.extract_postal_code world input_address) ->
             In (GeocoderCalled service address)
                (trace ((pre, Ok tt) ;;
                        render world (locations_pkl world) input_address lat
                               lng value map_type)) ->
             address = GeoApp.extract_postal_code world input_address).
  { intros lat lng value pre Hpre H.
    rewrite trace_bind in H. cbn [outcome trace fst snd] in H.
    apply in_app_or in H. destruct H as [H | H]; [auto |].
    pose proof (render_events world (locations_pkl world) input_address lat lng
                  value map_type) as Hev.
    rewrite Forall_forall in Hev. apply Hev in H. contradiction. }
  destruct (check_user_input_cases world input_address text)
    as [[Hcheck [value [Hfloat _]]] | [message Hrejected]].
  - rewrite (process_user_input_valid world _ _ _ _ Hcheck Hfloat).
    cbv zeta.
    destruct (nominatim_geocode world _) as [l |].
    + destruct (in_sg l).
      * apply Hr. unfold prefix, geocoded. cbn [In app]. intuition congruence.
      * destruct (pgeocode_query world _) as [l2 |].
        -- destruct (in_sg l2).
           ++ apply Hr. unfold prefix, geocoded. cbn [In app]. intuition congruence.
           ++ unfold prefix, geocoded. cbn [In app trace fst].
              intuition congruence.
        -- unfold prefix, geocoded. cbn [In app trace fst].
           intuition congruence.
    + unfold prefix. cbn [In app trace fst]. intuition congruence.
  - rewrite (process_user_input_rejected world _ _ map_type _ Hrejected).
    cbn [In trace fst]. intuition congruence.
Qed.

End Asked.

(** *** The further properties on the sample world *)

Lemma cmd_filter_locations_narrowing_sample :
  let world := Sample.world [] None None in
  let table := [Sample.jurong; Sample.orchard; Sample.changi] in
  GeoAppCmd.filter_locations world
    (GeoAppCmd.filter_locations world table (Finite 1.30) (Finite 103.80)
                                (Finite 20))
    (Finite 1.30) (Finite 103.80) (Finite 5)
  = GeoAppCmd.filter_locations world table (Finite 1.30) (Finite 103.80)
                               (Finite 5).
Proof.
  apply cmd_filter_locations_narrowing. reflexivity.
Defined.

Lemma filter_locations_grows_sample :
  let world := Sample.world [] None None in
  let table := [Sample.jurong; Sample.orchard; Sample.changi] in
  incl (GeoApp.filter_locations (pandas := stable_pandas) world table
          (Finite 1.30) (Finite 103.80) (Finite 5))
       (GeoApp.filter_locations (pandas := stable_pandas) world table
          (Finite 1.30) (Finite 103.80) (Finite 20))
  /\ (List.length (GeoApp.filter_locations (pandas := stable_pandas) world
                     table (Finite 1.30) (Finite 103.80) (Finite 5))
      <= List.length (GeoApp.filter_locations (pandas := stable_pandas) world
                        table (Finite 1.30) (Finite 103.80) (Finite 20)))%nat.
Proof.
  apply (filter_locations_grows_with_threshold (pandas := stable_pandas)).
  reflexivity.
Defined.

Lemma create_folium_map_children_sample :
  exists layers,
    GeoApp.create_folium_map (Some [Sample.north]) Sample.query
      (Finite 1.30) (Finite 103.80) (Finite 2) "Heat Density"
    = ([], Ok (folium.mk (Finite 1.30, Finite 103.80) 16
                 (layers
                    ++ [InputMarker (Finite 1.30, Finite 103.80) Sample.query;
                        Circle (Finite 1.30, Finite 103.80)
                               (fmul_pos (Finite 2) 1000);
                        MeasureControl])))
    /\ Forall (fun child => is_location_layer child = true) layers
    /\ (Some [Sample.north] = None
        \/ ("Heat Density" <> "Heat Density" /\ "Heat Density" <> "Clusters"
            /\ "Heat Density" <> "Proximity")
        -> layers = []).
Proof.
  apply create_folium_map_children. reflexivity.
Defined.

Lemma add_polyline_to_map_nearest_sample :
  let world := Sample.world [] None None in
  let lat := Finite 1.30 in
  let lng := Finite 103.80 in
  let m := folium.mk (lat, lng) 14 [] in
  let df :=
    GeoApp.filter_locations (pandas := stable_pandas) world
      [Sample.orchard; Sample.north; Sample.east] lat lng (Finite 5) in
  exists nearest,
    folium.children (GeoApp.add_polyline_to_map m (Some df) lat lng)
    = folium.children m
        ++ map (fun row => PolyLine (lat, lng) (point row)) nearest
    /\ nearest <> []
    /\ Forall (fun target =>
                 In target df
                 /\ Forall (fun row => (dist world lat lng target
                                        <=? dist world lat lng row)%float
                                       = true) df) nearest.
Proof.
  apply (add_polyline_to_map_nearest (pandas := stable_pandas)).
  discriminate.
Defined.



Lemma nan_threshold_sample :
  let world := Sample.world [Sample.north] (Some Sample.downtown) None in
  let run :=
    GeoApp.process_user_input (pandas := stable_pandas) world Sample.query
                              "nan" "Clusters" in
  outcome (GeoApp.check_user_input world Sample.query "nan") = Ok true
  /\ outcome run
     = Raised (TypeError
         "display_map() missing 1 required positional argument: 'map_type'")
  /\ count is_map_saved (trace run) = 0%nat
  /\ count is_error_dialog (trace run) = 0%nat.
Proof.
  apply (nan_threshold_accepted_then_raises (pandas := stable_pandas)
           _ _ _ _ Sample.downtown);
    try reflexivity; discriminate.
Defined.



Lemma geocoders_asked_sample :
  Some "987123"
  = GeoApp.extract_postal_code
      (Sample.world [Sample.orchard] (Some Sample.johor) (Some Sample.unknown))
      Sample.query.
Proof.
  apply (geocoders_asked_for_postal_code (pandas := stable_pandas)
           (Sample.world [Sample.orchard] (Some Sample.johor)
                         (Some Sample.unknown))
           Sample.query "2" "Clusters" Pgeocode (Some "987123")).
  simpl. repeat (first [left; reflexivity | right]).
Defined.
